(** * Representation extraction scripts: extract_arrays.py and extract-myseq.py

    A shallow embedding of the two command-line scripts and the properties
    of their layer-index normaliser, output selector and writer.

    The pretrained model, the tokeniser, the batcher, [pathlib], [torch.save]
    and [numpy.save] are external collaborators.  They appear here as an
    interface ([Externals]) and as an oracle for the outcome of filesystem
    calls ([Disk]); everything the scripts themselves compute is written out.
    Calls to [print] are omitted: they have no influence on any other
    effect. *)

From Stdlib Require Import ZArith List String Ascii Bool Lia QArith.
Import ListNotations.
Open Scope string_scope.
Open Scope Z_scope.

(** ** Exceptions and fallible expressions *)

Inductive exn : Type :=
| AssertionError
| NameError
| UnboundLocalError
| IndexError
| TypeError
| AttributeError
| ZeroDivisionError
| OSError.

(** [UnboundLocalError] is a subclass of [NameError] in Python. *)
Definition is_NameError (e : exn) : bool :=
  match e with
  | NameError | UnboundLocalError => true
  | _ => false
  end.

Inductive res (A : Type) : Type :=
| Ok (a : A)
| Raise (e : exn).
Arguments Ok {A} a.
Arguments Raise {A} e.

Definition res_bind {A B} (r : res A) (k : A -> res B) : res B :=
  match r with
  | Ok a => k a
  | Raise e => Raise e
  end.

(** ** Insertion-ordered dictionaries

    A Python [dict] keeps its keys in insertion order; assigning to an
    existing key keeps the key's position.  The raw-array mode depends on
    the iteration order, so dictionaries are association lists. *)

Class Eqb (K : Type) : Type := {
  eqb : K -> K -> bool;
  eqb_eq : forall x y, eqb x y = true <-> x = y
}.

#[export] Instance Eqb_Z : Eqb Z := {| eqb := Z.eqb; eqb_eq := Z.eqb_eq |}.
#[export] Instance Eqb_string : Eqb string :=
  {| eqb := String.eqb; eqb_eq := String.eqb_eq |}.

Definition dict (K V : Type) : Type := list (K * V).

Fixpoint dict_get {K V} `{Eqb K} (k : K) (d : dict K V) : option V :=
  match d with
  | [] => None
  | (k', v) :: d' => if eqb k k' then Some v else dict_get k d'
  end.

Fixpoint dict_set {K V} `{Eqb K} (k : K) (v : V) (d : dict K V) : dict K V :=
  match d with
  | [] => [(k, v)]
  | (k', v') :: d' =>
      if eqb k k' then (k, v) :: d' else (k', v') :: dict_set k v d'
  end.

Definition keys {K V} (d : dict K V) : list K := map fst d.

(** [{k: f(v) for k, v in items}], evaluated left to right into [acc];
    the first failing [f v] aborts the comprehension. *)
Fixpoint dict_comp_from {K V W} `{Eqb K} (f : V -> res W)
         (items : list (K * V)) (acc : dict K W) : res (dict K W) :=
  match items with
  | [] => Ok acc
  | (k, v) :: items' =>
      res_bind (f v) (fun w => dict_comp_from f items' (dict_set k w acc))
  end.

Definition dict_comp {K V W} `{Eqb K} (f : V -> res W)
           (items : list (K * V)) : res (dict K W) :=
  dict_comp_from f items [].

(** [d] is what the comprehension [{k: f(v) for k, v in items}] yields on
    a dictionary [items]: the same keys in the same order, each with the
    value of [f]. *)
Definition comprehension_of {K V W} (f : V -> res W)
           (items : dict K V) (d : dict K W) : Prop :=
  Forall2 (fun kv kw => fst kv = fst kw /\ f (snd kv) = Ok (snd kw)) items d.

(** The same for an [f] that cannot fail. *)
Definition dict_of_items {K V W} `{Eqb K} (f : V -> W)
           (items : list (K * V)) : dict K W :=
  fold_left (fun acc kv => dict_set (fst kv) (f (snd kv)) acc) items [].

(** ** Layer-index normaliser (both scripts)

<<
    assert all(
        -(model.num_layers + 1) <= i <= model.num_layers for i in args.repr_layers
    )
    repr_layers = [
        (i + model.num_layers + 1) % (model.num_layers + 1) for i in args.repr_layers
    ]
>> *)

Definition in_range (L i : Z) : bool := (- (L + 1) <=? i) && (i <=? L).

(** Python's [%] on integers: floored, raising on a zero divisor. *)
Definition py_mod (a b : Z) : res Z :=
  if b =? 0 then Raise ZeroDivisionError else Ok (a mod b).

Fixpoint list_comp {A B} (f : A -> res B) (l : list A) : res (list B) :=
  match l with
  | [] => Ok []
  | x :: l' =>
      res_bind (f x) (fun y =>
      res_bind (list_comp f l') (fun ys => Ok (y :: ys)))
  end.

Definition normalize_layers (L : Z) (repr_layers : list Z) : res (list Z) :=
  if forallb (in_range L) repr_layers
  then list_comp (fun i => py_mod (i + L + 1) (L + 1)) repr_layers
  else Raise AssertionError.

(** The canonical index the specification names. *)
Definition canonical (L i : Z) : Z := (i + L + 1) mod (L + 1).

(** ** Sequences and slices *)

(** [l[a:b]] for [0 <= a] and [0 <= b]: out-of-range bounds are clamped. *)
Definition py_slice {A} (a b : nat) (l : list A) : list A :=
  firstn (b - a) (skipn a l).

(** [l[i]] for [0 <= i]. *)
Definition py_index {A} (l : list A) (i : nat) : res A :=
  match nth_error l i with
  | Some x => Ok x
  | None => Raise IndexError
  end.

Definition enumerate {A} (l : list A) : list (nat * A) :=
  combine (seq 0 (List.length l)) l.

(** ** External collaborators *)

(** What the scripts import: the element type of the hidden axis of a layer
    tensor with torch's reduction [.mean(0)] over the position axis, the
    token tensor of a batch with the model's forward pass (the items of
    [out["representations"]], in the dictionary's order), and [pathlib]'s
    [/] and [.parent]. *)
Class Externals : Type := {
  vec : Type;
  mean0 : list vec -> vec;
  tokens : Type;
  forward : tokens -> list Z -> list (Z * list (list vec));
  path : Type;
  joinpath : path -> string -> path;
  parent : path -> path
}.

Section DataModel.
Context `{Externals}.

(** A layer representation of shape (batch, positions, hidden). *)
Definition tensor : Type := list (list vec).

(** One item of the data loader: [(labels, strs, toks)]. *)
Record batch : Type := {
  labels : list string;
  strs : list string;
  toks : tokens
}.

(** The values stored under the keys of the structured bundle. *)
Inductive entry : Type :=
| ELabel (label : string)
| ETensors (d : dict Z (list vec))
| EVectors (d : dict Z vec).

(** What the variables [result] and [res] can hold: the bundle
    [{"label": ...}], a two-dimensional slice of a layer tensor, or a
    one-dimensional tensor. *)
Inductive pyval : Type :=
| Bundle (d : dict string entry)
| Array (m : list vec)
| Vector (v : vec).

(** Calls that leave the process. *)
Inductive call : Type :=
| Mkdir (p : path)
| Forward (t : tokens) (layers : list Z)
| TorchSave (obj : pyval) (f : path)
| NpSave (f : path) (arr : pyval).

Inductive entry_log : Type :=
| Done (c : call)
| Failed (c : call).

Record args : Type := {
  output_dir : path;
  repr_layers : list Z;
  include : list string
}.

(** The function-local variables that survive from one loop iteration to
    the next, and the calls made so far. *)
Record state : Type := {
  result : option pyval;
  res_ : option pyval;
  trace : list entry_log
}.

Definition initial : state :=
  {| result := None; res_ := None; trace := [] |}.

End DataModel.

(** Whether a filesystem call, made after the given history, succeeds. *)
Class Disk `{Externals} : Type := {
  io_ok : list entry_log -> call -> bool
}.

(** ** Statements: state and exceptions *)

Section Monad.
Context `{Disk}.

Definition M (A : Type) : Type := state -> res A * state.

Definition ret {A} (a : A) : M A := fun s => (Ok a, s).

Definition bind {A B} (c : M A) (k : A -> M B) : M B :=
  fun s =>
    match c s with
    | (Ok a, s') => k a s'
    | (Raise e, s') => (Raise e, s')
    end.

Definition lift {A} (r : res A) : M A := fun s => (r, s).

Definition log (e : entry_log) (s : state) : state :=
  {| result := result s; res_ := res_ s; trace := trace s ++ [e] |}.

(** A call that the filesystem may refuse. *)
Definition syscall (c : call) : M unit :=
  fun s =>
    if io_ok (trace s) c
    then (Ok tt, log (Done c) s)
    else (Raise OSError, log (Failed c) s).

(** [model(toks, repr_layers=repr_layers)["representations"].items()] *)
Definition model_call (t : tokens) (layers : list Z)
  : M (list (Z * tensor)) :=
  fun s => (Ok (forward t layers), log (Done (Forward t layers)) s).

(** Reading the local variable [result]. *)
Definition get_result : M pyval :=
  fun s =>
    match result s with
    | Some v => (Ok v, s)
    | None => (Raise UnboundLocalError, s)
    end.

Definition set_result (v : pyval) : M unit :=
  fun s => (Ok tt, {| result := Some v; res_ := res_ s; trace := trace s |}).

Definition get_res : M pyval :=
  fun s =>
    match res_ s with
    | Some v => (Ok v, s)
    | None => (Raise UnboundLocalError, s)
    end.

Definition set_res (v : pyval) : M unit :=
  fun s => (Ok tt, {| result := result s; res_ := Some v; trace := trace s |}).

Fixpoint for_each {A} (l : list A) (body : A -> M unit) : M unit :=
  match l with
  | [] => ret tt
  | x :: l' => bind (body x) (fun _ => for_each l' body)
  end.

Definition when (b : bool) (c : M unit) : M unit :=
  if b then c else ret tt.

End Monad.

Notation "x <- c ;; k" := (bind c (fun x => k))
  (at level 61, c at next level, right associativity).
Notation "c ;;; k" := (bind c (fun _ => k))
  (at level 61, right associativity).

(** ** The output selector and writer *)

Section Scripts.
Context `{Disk}.

(** [x in args.include] *)
Definition included (x : string) (a : args) : bool :=
  existsb (String.eqb x) (include a).

(** [t[i, 1 : len(strs[i]) + 1]] *)
Definition per_tok_slice (strs : list string) (i : nat) (t : tensor)
  : res (list vec) :=
  res_bind (py_index strs i) (fun s =>
  res_bind (py_index t i) (fun row =>
  Ok (py_slice 1 (String.length s + 1) row))).

(** [t[i, 1 : len(strs[i]) + 1].mean(0)] *)
Definition mean_slice (strs : list string) (i : nat) (t : tensor)
  : res vec :=
  res_bind (per_tok_slice strs i t) (fun m => Ok (mean0 m)).

(** [t[i, 0]] *)
Definition bos_slice (i : nat) (t : tensor) : res vec :=
  res_bind (py_index t i) (fun row => py_index row 0).

(** [result[key] = value], the right-hand side being already evaluated. *)
Definition setitem (key : string) (value : entry) : M unit :=
  r <- get_result ;;
  match r with
  | Bundle d => set_result (Bundle (dict_set key value d))
  | Array _ | Vector _ => lift (Raise TypeError)
  end.

(** [result.detach().numpy()], whose value is dropped. *)
Definition detach_numpy : M unit :=
  r <- get_result ;;
  match r with
  | Array _ | Vector _ => ret tt
  | Bundle _ => lift (Raise AttributeError)
  end.

(** [representations = {layer: t.to(device="cpu") for layer, t in
    out["representations"].items()}]; moving a tensor to the CPU keeps its
    values. *)
Definition to_cpu (items : list (Z * tensor)) : dict Z tensor :=
  dict_of_items (fun t => t) items.

(** *** extract_arrays.py, the body of [for i, label in enumerate(labels)] *)

(** [args.output_file], as the first [if] of the body sets it. *)
Definition output_file (a : args) (label : string) : path :=
  if negb (included "npy_array" a)
  then joinpath (output_dir a) (label ++ ".pt")
  else joinpath (output_dir a) label.

Definition process_sequence (a : args) (representations : dict Z tensor)
           (strs : list string) (il : nat * string) : M unit :=
  let (i, label) := il in
  let npy := included "npy_array" a in
  let output_file := output_file a label in
  syscall (Mkdir (parent output_file)) ;;;
  when (negb npy) (set_result (Bundle [("label", ELabel label)])) ;;;
  when (included "per_tok" a)
    (if negb npy
     then d <- lift (dict_comp (per_tok_slice strs i) representations) ;;
          setitem "representations" (ETensors d)
     else for_each representations (fun lt =>
            m <- lift (per_tok_slice strs i (snd lt)) ;;
            set_result (Array m)) ;;;
          detach_numpy) ;;;
  when (included "mean" a)
    (when (negb npy)
       (d <- lift (dict_comp (mean_slice strs i) representations) ;;
        setitem "mean_representations" (EVectors d))) ;;;
  when (included "bos" a)
    (when (negb npy)
       (d <- lift (dict_comp (bos_slice i) representations) ;;
        setitem "bos_representations" (EVectors d))) ;;;
  if negb npy
  then r <- get_result ;; syscall (TorchSave r output_file)
  else r <- get_result ;; syscall (NpSave output_file r).

(** The body of [for batch_idx, (labels, strs, toks) in
    enumerate(data_loader)], the same in both scripts up to the
    per-sequence body. *)
Definition process_batch
           (body : dict Z tensor -> list string -> nat * string -> M unit)
           (layers : list Z) (b : batch) : M unit :=
  out <- model_call (toks b) layers ;;
  let representations := to_cpu out in
  for_each (enumerate (labels b)) (body representations (strs b)).

(** [main] of extract_arrays.py, from [args.output_dir.mkdir] on; the model
    (its [num_layers]) and the data loader's batches are given. *)
Definition main_arrays (a : args) (num_layers : Z) (data_loader : list batch)
  : M unit :=
  syscall (Mkdir (output_dir a)) ;;;
  layers <- lift (normalize_layers num_layers (repr_layers a)) ;;
  for_each data_loader (process_batch (process_sequence a) layers).

(** *** extract-myseq.py

    The name [result] is bound nowhere in this script (its only binding,
    [result = {"label": label}], is commented out), so it is looked up as a
    global that does not exist; [res] is an ordinary local. *)
Definition global_result : M pyval := lift (Raise NameError).

(** [result[key] = value]: the right-hand side is already evaluated, the
    name [result] is evaluated next. *)
Definition setitem_myseq (key : string) (value : entry) : M unit :=
  r <- global_result ;;
  match r with
  | Bundle _ => ret tt
  | Array _ | Vector _ => lift (Raise TypeError)
  end.

(** [res.detach().numpy()], whose value is dropped. *)
Definition detach_numpy_res : M unit :=
  r <- get_res ;;
  match r with
  | Array _ | Vector _ => ret tt
  | Bundle _ => lift (Raise AttributeError)
  end.

Definition process_sequence_myseq (a : args)
           (representations : dict Z tensor)
           (strs : list string) (il : nat * string) : M unit :=
  let (i, label) := il in
  let output_file := joinpath (output_dir a) label in
  syscall (Mkdir (parent output_file)) ;;;
  when (included "per_tok" a)
    (d <- lift (dict_comp (per_tok_slice strs i) representations) ;;
     setitem_myseq "representations" (ETensors d)) ;;;
  when (included "mean" a)
    (d <- lift (dict_comp (mean_slice strs i) representations) ;;
     setitem_myseq "mean_representations" (EVectors d)) ;;;
  for_each representations (fun lt =>
    v <- lift (mean_slice strs i (snd lt)) ;;
    set_res (Vector v)) ;;;
  detach_numpy_res ;;;
  when (included "bos" a)
    (d <- lift (dict_comp (bos_slice i) representations) ;;
     setitem_myseq "bos_representations" (EVectors d)) ;;;
  (r <- get_res ;; syscall (NpSave output_file r)) ;;;
  (r <- global_result ;; syscall (TorchSave r output_file)).

(** [main] of extract-myseq.py: the body of [for filename in glob.glob(...)]
    runs once per FASTA file found, each with its own data loader; opening
    a file that [glob] has just listed is taken to succeed. *)
Definition main_myseq (a : args) (num_layers : Z)
           (files : list (list batch)) : M unit :=
  for_each files (fun data_loader =>
    syscall (Mkdir (output_dir a)) ;;;
    layers <- lift (normalize_layers num_layers (repr_layers a)) ;;
    for_each data_loader (process_batch (process_sequence_myseq a) layers)).

(** ** Reading a run *)

Definition saves (tr : list entry_log) : list call :=
  flat_map (fun e =>
    match e with
    | Done (TorchSave o f) => [TorchSave o f]
    | Done (NpSave f o) => [NpSave f o]
    | _ => []
    end) tr.

Definition saved_paths (tr : list entry_log) : list path :=
  flat_map (fun e =>
    match e with
    | Done (TorchSave _ f) => [f]
    | Done (NpSave f _) => [f]
    | _ => []
    end) tr.

(** The call with which an iteration of extract_arrays.py saves [v]:
    [torch.save(result, args.output_file)] or
    [np.save(args.output_file, result)]. *)
Definition save_call (a : args) (label : string) (v : pyval) : call :=
  if negb (included "npy_array" a)
  then TorchSave v (output_file a label)
  else NpSave (output_file a label) v.

(** The bundle that one iteration of extract_arrays.py has built when it
    reaches [torch.save], given the three comprehensions: one key per
    requested kind, in the order of the [if] statements. *)
Definition bundle_of (a : args) (label : string)
           (dt : dict Z (list vec)) (dm db : dict Z vec)
  : dict string entry :=
  ([("label", ELabel label)]
  ++ (if included "per_tok" a then [("representations", ETensors dt)] else [])
  ++ (if included "mean" a
      then [("mean_representations", EVectors dm)] else [])
  ++ (if included "bos" a
      then [("bos_representations", EVectors db)] else []))%list.

(** A statement is quiet when it makes no call and raises no [OSError]. *)
Definition quiet {A} (c : M A) : Prop :=
  forall s, trace (snd (c s)) = trace s /\ fst (c s) <> Raise OSError.

(** The log entry of a call that was made, whether or not it succeeded. *)
Definition attempt (c : call) (e : entry_log) : Prop :=
  e = Done c \/ e = Failed c.

Definition is_forward (e : entry_log) : bool :=
  match e with
  | Done (Forward _ _) | Failed (Forward _ _) => true
  | _ => false
  end.

Definition no_inference (tr : list entry_log) : bool :=
  negb (existsb is_forward tr).

(** The shape the data model gives a batch and its layer tensors: one label
    and one row per sequence, each row holding the beginning-of-sequence
    position, the residues, then padding. *)
Definition row_ok (strs : list string) (t : tensor) (i : nat) : bool :=
  match nth_error strs i, nth_error t i with
  | Some s, Some row => (String.length s + 1 <=? List.length row)%nat
  | _, _ => false
  end.

Definition well_shaped (strs : list string) (i : nat)
           (representations : dict Z tensor) : bool :=
  forallb (fun lt => row_ok strs (snd lt) i) representations.

(** ** Reading a whole run *)

(** The files a run of extract_arrays.py saves when it completes: one per
    label, batch after batch. *)
Definition expected_paths (a : args) (data_loader : list batch) : list path :=
  flat_map (fun b => map (output_file a) (labels b)) data_loader.

(** The forward passes made, with the layers requested from the model. *)
Definition forward_calls (tr : list entry_log) : list (tokens * list Z) :=
  flat_map (fun e =>
    match e with
    | Done (Forward t layers) => [(t, layers)]
    | _ => []
    end) tr.

Definition is_save (e : entry_log) : bool :=
  match e with
  | Done (TorchSave _ _) | Failed (TorchSave _ _)
  | Done (NpSave _ _) | Failed (NpSave _ _) => true
  | _ => false
  end.

Definition is_torch_save (e : entry_log) : bool :=
  match e with
  | Done (TorchSave _ _) | Failed (TorchSave _ _) => true
  | _ => false
  end.

Definition is_failed (e : entry_log) : bool :=
  match e with
  | Failed _ => true
  | Done _ => false
  end.

(** Every call a statement makes satisfies [P]. *)
Definition adds (P : entry_log -> Prop) {A} (c : M A) : Prop :=
  forall s, exists added,
    trace (snd (c s)) = (trace s ++ added)%list /\ Forall P added.

(** The state with another binding of the variable [result]. *)
Definition with_result (r : option pyval) (s : state) : state :=
  {| result := r; res_ := res_ s; trace := trace s |}.

(** A statement that completes has shown [xs] in a view of the log, and a
    statement that raises has shown an initial part of [xs]. *)
Definition emits {X} (view : list entry_log -> list X) (xs : list X)
           (c : M unit) : Prop :=
  forall s,
    (fst (c s) = Ok tt
     /\ view (trace (snd (c s))) = (view (trace s) ++ xs)%list)
    \/ (fst (c s) <> Ok tt
        /\ exists k,
             view (trace (snd (c s))) = (view (trace s) ++ firstn k xs)%list).

(** A statement ends at the first call the filesystem refuses: a refused
    call is the last one made, and there is one exactly when the outcome
    is an [OSError]. *)
Definition stops_at_refusal {A} (c : M A) : Prop :=
  forall s, exists added,
    trace (snd (c s)) = (trace s ++ added)%list
    /\ ((fst (c s) <> Raise OSError
         /\ Forall (fun e => is_failed e = false) added)
        \/ (fst (c s) = Raise OSError
            /\ exists done refused,
                 added = (done ++ [Failed refused])%list
                 /\ Forall (fun e => is_failed e = false) done)).

End Scripts.

(** ** A synthetic instance with known values

    Hidden vectors over the rationals with the exact arithmetic mean, a
    model whose layer [l] gives token [k] the vector [(l, k)], and paths as
    strings joined by a slash. *)

Module Synthetic.

Definition column (j : nat) (m : list (list Q)) : list Q :=
  map (fun v => nth j v (0 # 1)%Q) m.

Definition Qsum (l : list Q) : Q := fold_right Qplus (0 # 1)%Q l.

Definition Qmean0 (m : list (list Q)) : list Q :=
  match m with
  | [] => []
  | v :: _ =>
      map (fun j =>
             Qred (Qsum (column j m) / inject_Z (Z.of_nat (List.length m))))
          (seq 0 (List.length v))
  end.

Definition embed (layer : Z) (toks : list (list Z)) : list (list (list Q)) :=
  map (map (fun k => [inject_Z layer; inject_Z k])) toks.

Definition model (toks : list (list Z)) (layers : list Z)
  : list (Z * list (list (list Q))) :=
  map (fun l => (l, embed l toks)) layers.

Fixpoint dir_aux (p : string) : option string :=
  match p with
  | EmptyString => None
  | String c p' =>
      match dir_aux p' with
      | Some d => Some (String c d)
      | None => if Ascii.eqb c "/"%char then Some EmptyString else None
      end
  end.

Definition dirname (p : string) : string :=
  match dir_aux p with
  | Some d => d
  | None => "."
  end.

#[export] Instance ext : Externals := {|
  vec := list Q;
  mean0 := Qmean0;
  tokens := list (list Z);
  forward := model;
  path := string;
  joinpath := fun d s => d ++ "/" ++ s;
  parent := dirname
|}.

(** A disk that accepts every call. *)
Definition healthy : Disk := {| io_ok := fun _ _ => true |}.

(** A disk with room for [n] files: directories can always be made, the
    save after the [n]-th one fails. *)
Definition room_for (n : nat) : Disk := {|
  io_ok := fun tr c =>
    match c with
    | TorchSave _ _ | NpSave _ _ => (List.length (saves tr) <? n)%nat
    | _ => true
    end
|}.

(** The sequences "MK" and "MKV" in one batch: beginning-of-sequence token
    0, then the residues, then padding 1. *)
Definition mk_mkv : batch := {|
  labels := ["seq1"; "seq2"];
  strs := ["MK"; "MKV"];
  toks := [[0; 20; 15; 1]; [0; 20; 15; 7]]
|}.

Definition cli (layers : list Z) (kinds : list string) : args := {|
  output_dir := "out";
  repr_layers := layers;
  include := kinds
|}.

End Synthetic.

(** * Properties *)

Open Scope list_scope.

(** ** The normaliser *)

Lemma in_range_iff (L i : Z) :
  in_range L i = true <-> - (L + 1) <= i <= L.
Proof. unfold in_range. rewrite andb_true_iff, !Z.leb_le. tauto. Qed.

Lemma forallb_in_range (L : Z) (l : list Z) :
  forallb (in_range L) l = true <->
  Forall (fun i => - (L + 1) <= i <= L) l.
Proof.
  rewrite forallb_forall, Forall_forall.
  split; intros Hl i Hi; apply in_range_iff; auto.
Qed.

Lemma out_of_range_forallb (L : Z) (l : list Z) :
  Exists (fun i => ~ - (L + 1) <= i <= L) l ->
  forallb (in_range L) l = false.
Proof.
  intros Hex. apply not_true_is_false. intros Hall.
  apply forallb_in_range in Hall.
  apply Exists_exists in Hex as (i & Hi & Hout).
  rewrite Forall_forall in Hall. auto.
Qed.

(** A layer count that admits some index is non-negative, so the modulus
    [L + 1] is never zero when it is used. *)
Lemma in_range_layers_nonneg (L i : Z) :
  - (L + 1) <= i <= L -> 0 <= L.
Proof. lia. Qed.

Lemma list_comp_canonical (L : Z) (l : list Z) :
  Forall (fun i => - (L + 1) <= i <= L) l ->
  list_comp (fun i => py_mod (i + L + 1) (L + 1)) l = Ok (map (canonical L) l).
Proof.
  induction 1 as [|i l Hi Hl IH]; simpl; [reflexivity|].
  unfold py_mod at 1.
  destruct (Z.eqb_spec (L + 1) 0) as [E|_]; [lia|].
  simpl. rewrite IH. reflexivity.
Qed.

Lemma normalize_layers_valid (L : Z) (l : list Z) :
  Forall (fun i => - (L + 1) <= i <= L) l ->
  normalize_layers L l = Ok (map (canonical L) l).
Proof.
  intros Hl. unfold normalize_layers.
  rewrite (proj2 (forallb_in_range L l) Hl).
  apply list_comp_canonical, Hl.
Qed.

Lemma normalize_layers_invalid (L : Z) (l : list Z) :
  Exists (fun i => ~ - (L + 1) <= i <= L) l ->
  normalize_layers L l = Raise AssertionError.
Proof.
  intros Hex. unfold normalize_layers.
  rewrite (out_of_range_forallb L l Hex). reflexivity.
Qed.

Lemma canonical_bounds (L i : Z) :
  - (L + 1) <= i <= L -> 0 <= canonical L i <= L.
Proof.
  intros Hi. unfold canonical.
  assert (0 <= (i + L + 1) mod (L + 1) < L + 1)
    by (apply Z.mod_pos_bound; lia).
  lia.
Qed.

(** On valid indices the normaliser is the identity on the non-negative
    ones and adds [L + 1] to the negative ones; [- (L + 1)] itself goes
    to [0]. *)
Lemma canonical_cases (L i : Z) :
  - (L + 1) <= i <= L ->
  canonical L i = if i <? 0 then i + (L + 1) else i.
Proof.
  intros Hi. unfold canonical.
  destruct (Z.ltb_spec i 0).
  - replace (i + L + 1) with (i + (L + 1)) by lia.
    apply Z.mod_small. lia.
  - replace (i + L + 1) with (i + 1 * (L + 1)) by lia.
    rewrite Z.mod_add by lia. apply Z.mod_small. lia.
Qed.

Lemma canonical_collision (L i j : Z) :
  - (L + 1) <= i <= L -> - (L + 1) <= j <= L ->
  (canonical L i = canonical L j <->
   i = j \/ i = j + (L + 1) \/ j = i + (L + 1)).
Proof.
  intros Hi Hj.
  rewrite (canonical_cases L i Hi), (canonical_cases L j Hj).
  destruct (Z.ltb_spec i 0), (Z.ltb_spec j 0); lia.
Qed.

(** ** Running statements *)

Section Runs.
Context `{Disk}.

Lemma for_each_app {A} (l1 l2 : list A) (body : A -> M unit) (s : state) :
  for_each (l1 ++ l2) body s =
  match for_each l1 body s with
  | (Ok _, s1) => for_each l2 body s1
  | (Raise e, s1) => (Raise e, s1)
  end.
Proof.
  revert s. induction l1 as [|x l1 IH]; intros s; simpl.
  - reflexivity.
  - unfold bind. destruct (body x s) as [[[]|e] s1]; [apply IH | reflexivity].
Qed.

(** A loop stops at the first iteration that raises: later items are not
    visited and the state is the one the failing iteration left. *)
Lemma for_each_stops {A} (l1 l2 : list A) (x : A) (body : A -> M unit)
      (s0 s1 s2 : state) (e : exn) :
  for_each l1 body s0 = (Ok tt, s1) ->
  body x s1 = (Raise e, s2) ->
  for_each (l1 ++ x :: l2) body s0 = (Raise e, s2).
Proof.
  intros H1 Hx. rewrite for_each_app, H1. simpl. unfold bind.
  rewrite Hx. reflexivity.
Qed.

Lemma main_arrays_invalid (a : args) (L : Z) (dl : list batch) (s : state) :
  Exists (fun i => ~ - (L + 1) <= i <= L) (repr_layers a) ->
  main_arrays a L dl s =
  if io_ok (trace s) (Mkdir (output_dir a))
  then (Raise AssertionError, log (Done (Mkdir (output_dir a))) s)
  else (Raise OSError, log (Failed (Mkdir (output_dir a))) s).
Proof.
  intros Hex. unfold main_arrays, bind, syscall, lift.
  rewrite (normalize_layers_invalid L _ Hex).
  destruct (io_ok (trace s) (Mkdir (output_dir a))); reflexivity.
Qed.

Lemma main_myseq_invalid (a : args) (L : Z) (dl : list batch)
      (files : list (list batch)) (s : state) :
  Exists (fun i => ~ - (L + 1) <= i <= L) (repr_layers a) ->
  main_myseq a L (dl :: files) s =
  if io_ok (trace s) (Mkdir (output_dir a))
  then (Raise AssertionError, log (Done (Mkdir (output_dir a))) s)
  else (Raise OSError, log (Failed (Mkdir (output_dir a))) s).
Proof.
  intros Hex. unfold main_myseq. simpl. unfold bind, syscall, lift.
  rewrite (normalize_layers_invalid L _ Hex).
  destruct (io_ok (trace s) (Mkdir (output_dir a))); reflexivity.
Qed.

Lemma no_inference_log_mkdir (s : state) (e : entry_log) :
  is_forward e = false ->
  no_inference (trace s) = true ->
  no_inference (trace (log e s)) = true.
Proof.
  unfold no_inference. simpl. intros He Hs.
  rewrite existsb_app. simpl. rewrite He.
  apply negb_true_iff in Hs. rewrite Hs. reflexivity.
Qed.

(** C2: every list of layer indices within [-(L+1), L] is normalised to
    the canonical indices [(i + L + 1) mod (L + 1)], which are
    non-negative; a list with an index outside the range makes the
    [assert] fail, and the assertion failure ends [main] of either script
    once the output directory exists. *)
Theorem C2_layer_index_normalizer (a : args) (L : Z) :
  (Forall (fun i => - (L + 1) <= i <= L) (repr_layers a) ->
   normalize_layers L (repr_layers a)
   = Ok (map (fun i => (i + L + 1) mod (L + 1)) (repr_layers a))
   /\ Forall (fun c => 0 <= c)
             (map (fun i => (i + L + 1) mod (L + 1)) (repr_layers a)))
  /\
  (Exists (fun i => ~ - (L + 1) <= i <= L) (repr_layers a) ->
   normalize_layers L (repr_layers a) = Raise AssertionError
   /\ (forall dl s,
         io_ok (trace s) (Mkdir (output_dir a)) = true ->
         main_arrays a L dl s
         = (Raise AssertionError, log (Done (Mkdir (output_dir a))) s))
   /\ (forall dl files s,
         io_ok (trace s) (Mkdir (output_dir a)) = true ->
         main_myseq a L (dl :: files) s
         = (Raise AssertionError, log (Done (Mkdir (output_dir a))) s))).
Proof.
  split.
  - intros Hl. split.
    + apply normalize_layers_valid, Hl.
    + apply Forall_map. revert Hl. apply Forall_impl.
      intros i Hi. apply (canonical_bounds L i Hi).
  - intros Hex. split; [apply normalize_layers_invalid, Hex|]. split.
    + intros dl s Hok. rewrite (main_arrays_invalid a L dl s Hex), Hok.
      reflexivity.
    + intros dl files s Hok.
      rewrite (main_myseq_invalid a L dl files s Hex), Hok. reflexivity.
Qed.

(** C3, as amended: on a valid list the normaliser lands in [0, L], and
    two valid indices get the same canonical index exactly when they are
    equal or differ by [L + 1]; with an out-of-range index no forward pass
    runs, and the run ends in an exception (for extract-myseq.py whenever
    a FASTA file is found). *)
Theorem C3_normalization_aliases (a : args) (L : Z) :
  (Forall (fun i => - (L + 1) <= i <= L) (repr_layers a) ->
   Forall (fun c => 0 <= c <= L) (map (canonical L) (repr_layers a))
   /\ forall i j, In i (repr_layers a) -> In j (repr_layers a) ->
        (canonical L i = canonical L j
         <-> i = j \/ i = j + (L + 1) \/ j = i + (L + 1)))
  /\
  (Exists (fun i => ~ - (L + 1) <= i <= L) (repr_layers a) ->
   (forall dl s, no_inference (trace s) = true ->
      (exists e, fst (main_arrays a L dl s) = Raise e)
      /\ no_inference (trace (snd (main_arrays a L dl s))) = true)
   /\ (forall files s, no_inference (trace s) = true ->
      (files <> [] -> exists e, fst (main_myseq a L files s) = Raise e)
      /\ no_inference (trace (snd (main_myseq a L files s))) = true)).
Proof.
  split.
  - intros Hl. split.
    + apply Forall_map. revert Hl. apply Forall_impl.
      intros i Hi. apply (canonical_bounds L i Hi).
    + intros i j Hi Hj. rewrite Forall_forall in Hl.
      apply canonical_collision; auto.
  - intros Hex. split.
    + intros dl s Hs. rewrite (main_arrays_invalid a L dl s Hex).
      destruct (io_ok (trace s) (Mkdir (output_dir a))); simpl;
        (split; [eexists; reflexivity
                | apply no_inference_log_mkdir; [reflexivity | exact Hs]]).
    + intros [|dl files] s Hs.
      * split; [intros Hne; contradiction Hne; reflexivity | exact Hs].
      * rewrite (main_myseq_invalid a L dl files s Hex).
        destruct (io_ok (trace s) (Mkdir (output_dir a))); simpl;
          (split; [intros _; eexists; reflexivity
                  | apply no_inference_log_mkdir; [reflexivity | exact Hs]]).
Qed.

End Runs.

(** ** Dictionaries *)

Section Dictionaries.
Context {K : Type} `{Eqb K}.

Lemma eqb_refl (k : K) : eqb k k = true.
Proof. apply eqb_eq. reflexivity. Qed.

Lemma eqb_neq (k k' : K) : k <> k' -> eqb k k' = false.
Proof.
  intros Hne. apply not_true_is_false. intros E. apply eqb_eq in E. auto.
Qed.

(** Assigning to a key either overwrites in place or appends. *)
Lemma dict_set_cases {V} (k : K) (v : V) (d : dict K V) :
  (In k (keys d) /\ keys (dict_set k v d) = keys d)
  \/ (~ In k (keys d) /\ dict_set k v d = d ++ [(k, v)]).
Proof.
  induction d as [|[k' v'] d IH]; simpl.
  - right. split; [tauto | reflexivity].
  - destruct (eqb k k') eqn:E.
    + apply eqb_eq in E. subst k'. left. split; [auto | reflexivity].
    + assert (k' <> k) as Hne
          by (intros ->; rewrite eqb_refl in E; discriminate).
      destruct IH as [[Hin Hk]|[Hout Hd]].
      * left. split; [auto | simpl; rewrite Hk; reflexivity].
      * right. split; [tauto | rewrite Hd; reflexivity].
Qed.

Lemma NoDup_dict_set {V} (k : K) (v : V) (d : dict K V) :
  NoDup (keys d) -> NoDup (keys (dict_set k v d)).
Proof.
  intros Hd. destruct (dict_set_cases k v d) as [[_ Hk]|[Hout Hk]].
  - rewrite Hk. exact Hd.
  - rewrite Hk. unfold keys. rewrite map_app. simpl.
    apply NoDup_app; [exact Hd | repeat constructor; simpl; tauto | ].
    intros k0 Hin [<-|[]]. exact (Hout Hin).
Qed.

(** A dictionary built by a comprehension has each key once. *)
Lemma NoDup_dict_of_items {V W} (f : V -> W) (items : list (K * V)) :
  NoDup (keys (dict_of_items f items)).
Proof.
  unfold dict_of_items.
  assert (forall acc : dict K W, NoDup (keys acc) ->
            NoDup (keys (fold_left
              (fun acc kv => dict_set (fst kv) (f (snd kv)) acc) items acc)))
    as Hgen.
  { induction items as [|kv items IH]; intros acc Hacc; simpl.
    - exact Hacc.
    - apply IH, NoDup_dict_set, Hacc. }
  apply Hgen. constructor.
Qed.

Lemma dict_comp_from_fresh {V W} (f : V -> res W) (items : dict K V) :
  NoDup (keys items) ->
  (forall kv, In kv items -> exists w, f (snd kv) = Ok w) ->
  forall acc : dict K W,
    (forall k, In k (keys items) -> ~ In k (keys acc)) ->
    exists d, dict_comp_from f items acc = Ok (acc ++ d)
              /\ comprehension_of f items d.
Proof.
  induction items as [|[k v] items IH]; intros Hnd Hf acc Hfresh; simpl.
  - exists []. rewrite app_nil_r. split; [reflexivity | constructor].
  - simpl in Hnd. inversion Hnd as [|? ? Hk Hnd']; subst.
    destruct (Hf (k, v) (or_introl eq_refl)) as [w Hw]. simpl in Hw.
    rewrite Hw. simpl.
    destruct (dict_set_cases k w acc) as [[Hin _]|[_ Hset]].
    { exfalso. apply (Hfresh k); simpl; auto. }
    rewrite Hset.
    destruct (IH Hnd' (fun kv Hkv => Hf kv (or_intror Hkv)) (acc ++ [(k, w)]))
      as [d [Hd Hcomp]].
    { intros k0 Hk0. unfold keys. rewrite map_app, in_app_iff. simpl.
      intros [Hacc|[<-|[]]].
      - apply (Hfresh k0); simpl; auto.
      - exact (Hk Hk0). }
    exists ((k, w) :: d). split.
    + rewrite Hd, <- app_assoc. reflexivity.
    + constructor; [split; [reflexivity | exact Hw] | exact Hcomp].
Qed.

Lemma dict_comp_ok {V W} (f : V -> res W) (items : dict K V) :
  NoDup (keys items) ->
  (forall kv, In kv items -> exists w, f (snd kv) = Ok w) ->
  exists d, dict_comp f items = Ok d /\ comprehension_of f items d.
Proof.
  intros Hnd Hf.
  destruct (dict_comp_from_fresh f items Hnd Hf []) as [d [Hd Hc]].
  - intros k _ [].
  - exists d. split; [exact Hd | exact Hc].
Qed.

Lemma comprehension_keys {V W} (f : V -> res W)
      (items : dict K V) (d : dict K W) :
  comprehension_of f items d -> keys d = keys items.
Proof.
  induction 1 as [|kv kw items d [Hk _] _ IH]; simpl.
  - reflexivity.
  - rewrite IH, Hk. reflexivity.
Qed.

Lemma comprehension_get {V W} (f : V -> res W)
      (items : dict K V) (d : dict K W) (k : K) (v : V) :
  comprehension_of f items d ->
  dict_get k items = Some v ->
  exists w, dict_get k d = Some w /\ f v = Ok w.
Proof.
  induction 1 as [|[k1 v1] [k2 w2] items d [Hk Hf] _ IH]; simpl.
  - discriminate.
  - simpl in Hk, Hf. subst k2. destruct (eqb k k1).
    + intros [= <-]. exists w2. split; [reflexivity | exact Hf].
    + exact IH.
Qed.

Lemma dict_get_In {V} (k : K) (v : V) (d : dict K V) :
  dict_get k d = Some v -> In (k, v) d.
Proof.
  induction d as [|[k' v'] d IH]; simpl; [discriminate|].
  destruct (eqb k k') eqn:E.
  - apply eqb_eq in E. intros [= ->]. subst. auto.
  - auto.
Qed.

End Dictionaries.

(** ** Slices of well-shaped tensors *)

Lemma py_slice_length {A} (n : nat) (row : list A) :
  (n + 1 <= List.length row)%nat ->
  List.length (py_slice 1 (n + 1) row) = n.
Proof.
  intros Hn. unfold py_slice.
  rewrite length_firstn, length_skipn. lia.
Qed.

Lemma py_slice_nth {A} (n k : nat) (row : list A) :
  (k < n)%nat ->
  nth_error (py_slice 1 (n + 1) row) k = nth_error row (S k).
Proof.
  intros Hk. unfold py_slice.
  replace (n + 1 - 1)%nat with n by lia.
  rewrite nth_error_firstn.
  destruct (Nat.ltb_spec k n); [|lia].
  destruct row; simpl; [destruct k|]; reflexivity.
Qed.

Section Selector.
Context `{Disk}.

Lemma row_ok_inv (strs : list string) (t : tensor) (i : nat) :
  row_ok strs t i = true ->
  exists s row,
    nth_error strs i = Some s /\ nth_error t i = Some row
    /\ (String.length s + 1 <= List.length row)%nat.
Proof.
  unfold row_ok.
  destruct (nth_error strs i) as [s|]; [|discriminate].
  destruct (nth_error t i) as [row|]; [|discriminate].
  intros Hle. apply Nat.leb_le in Hle. eauto.
Qed.

Lemma per_tok_slice_ok (strs : list string) (t : tensor) (i : nat)
      (s : string) (row : list vec) :
  nth_error strs i = Some s -> nth_error t i = Some row ->
  per_tok_slice strs i t = Ok (py_slice 1 (String.length s + 1) row).
Proof.
  intros Hs Hrow. unfold per_tok_slice, py_index.
  rewrite Hs. simpl. rewrite Hrow. reflexivity.
Qed.

Lemma well_shaped_In (strs : list string) (i : nat)
      (representations : dict Z tensor) (lt : Z * tensor) :
  well_shaped strs i representations = true ->
  In lt representations -> row_ok strs (snd lt) i = true.
Proof.
  unfold well_shaped. rewrite forallb_forall. auto.
Qed.

Lemma per_tok_defined (strs : list string) (i : nat)
      (representations : dict Z tensor) :
  well_shaped strs i representations = true ->
  forall lt, In lt representations ->
    exists m, per_tok_slice strs i (snd lt) = Ok m.
Proof.
  intros Hw lt Hin.
  destruct (row_ok_inv _ _ _ (well_shaped_In _ _ _ _ Hw Hin))
    as (s & row & Hs & Hrow & _).
  rewrite (per_tok_slice_ok _ _ _ _ _ Hs Hrow). eauto.
Qed.

Lemma mean_defined (strs : list string) (i : nat)
      (representations : dict Z tensor) :
  well_shaped strs i representations = true ->
  forall lt, In lt representations ->
    exists v, mean_slice strs i (snd lt) = Ok v.
Proof.
  intros Hw lt Hin. unfold mean_slice.
  destruct (per_tok_defined _ _ _ Hw lt Hin) as [m Hm].
  rewrite Hm. simpl. eauto.
Qed.

Lemma bos_defined (strs : list string) (i : nat)
      (representations : dict Z tensor) :
  well_shaped strs i representations = true ->
  forall lt, In lt representations ->
    exists v, bos_slice i (snd lt) = Ok v.
Proof.
  intros Hw lt Hin.
  destruct (row_ok_inv _ _ _ (well_shaped_In _ _ _ _ Hw Hin))
    as (s & row & _ & Hrow & Hlen).
  unfold bos_slice, py_index. rewrite Hrow. simpl.
  destruct row as [|v row]; [simpl in Hlen; lia|]. simpl. eauto.
Qed.

(** *** extract_arrays.py without [npy_array]: the structured bundle *)

Lemma process_sequence_bundle (a : args) (items : list (Z * tensor))
      (strs : list string) (i : nat) (label : string) (s : state) :
  let representations := to_cpu items in
  let file := joinpath (output_dir a) (label ++ ".pt")%string in
  included "npy_array" a = false ->
  io_ok (trace s) (Mkdir (parent file)) = true ->
  well_shaped strs i representations = true ->
  exists dt dm db,
    comprehension_of (per_tok_slice strs i) representations dt
    /\ comprehension_of (mean_slice strs i) representations dm
    /\ comprehension_of (bos_slice i) representations db
    /\ process_sequence a representations strs (i, label) s
       = syscall (TorchSave (Bundle (bundle_of a label dt dm db)) file)
           {| result := Some (Bundle (bundle_of a label dt dm db));
              res_ := res_ s;
              trace := trace s ++ [Done (Mkdir (parent file))] |}.
Proof.
  intros representations file Hnpy Hmk Hw.
  assert (NoDup (keys representations)) as Hnd
      by apply NoDup_dict_of_items.
  destruct (dict_comp_ok (per_tok_slice strs i) representations Hnd
              (per_tok_defined _ _ _ Hw)) as [dt [Et Ht]].
  destruct (dict_comp_ok (mean_slice strs i) representations Hnd
              (mean_defined _ _ _ Hw)) as [dm [Em Hm]].
  destruct (dict_comp_ok (bos_slice i) representations Hnd
              (bos_defined _ _ _ Hw)) as [db [Eb Hb]].
  exists dt, dm, db. repeat split; try assumption.
  unfold process_sequence, bundle_of, output_file. rewrite Hnpy.
  simpl negb. cbv iota. fold file.
  unfold bind at 1. unfold syscall at 1. rewrite Hmk.
  unfold when, bind, lift, setitem, get_result, set_result, bind, log.
  rewrite Et, Em, Eb.
  destruct (included "per_tok" a), (included "mean" a), (included "bos" a);
    reflexivity.
Qed.

End Selector.

Section BundleMode.
Context `{Disk}.

(** What the iteration leaves in the log: the directory, then one call to
    [torch.save] with the bundle. *)
Lemma process_sequence_bundle_log (a : args) (items : list (Z * tensor))
      (strs : list string) (i : nat) (label : string) (s : state) :
  let representations := to_cpu items in
  let file := joinpath (output_dir a) (label ++ ".pt")%string in
  included "npy_array" a = false ->
  io_ok (trace s) (Mkdir (parent file)) = true ->
  well_shaped strs i representations = true ->
  exists dt dm db e,
    comprehension_of (per_tok_slice strs i) representations dt
    /\ comprehension_of (mean_slice strs i) representations dm
    /\ comprehension_of (bos_slice i) representations db
    /\ attempt (TorchSave (Bundle (bundle_of a label dt dm db)) file) e
    /\ trace (snd (process_sequence a representations strs (i, label) s))
       = trace s ++ [Done (Mkdir (parent file)); e]
    /\ (fst (process_sequence a representations strs (i, label) s) = Ok tt
        -> e = Done (TorchSave (Bundle (bundle_of a label dt dm db)) file)).
Proof.
  intros representations file Hnpy Hmk Hw.
  destruct (process_sequence_bundle a items strs i label s Hnpy Hmk Hw)
    as (dt & dm & db & Ht & Hm & Hb & Hrun).
  fold representations file in Hrun.
  exists dt, dm, db. rewrite Hrun. unfold syscall. simpl trace.
  destruct (io_ok (trace s ++ _) _).
  - exists (Done (TorchSave (Bundle (bundle_of a label dt dm db)) file)).
    split; [exact Ht|]. split; [exact Hm|]. split; [exact Hb|].
    split; [left; reflexivity|].
    split; [simpl; rewrite <- app_assoc; reflexivity | reflexivity].
  - exists (Failed (TorchSave (Bundle (bundle_of a label dt dm db)) file)).
    split; [exact Ht|]. split; [exact Hm|]. split; [exact Hb|].
    split; [right; reflexivity|].
    split; [simpl; rewrite <- app_assoc; reflexivity | discriminate].
Qed.

Lemma dict_get_tensor_row (strs : list string) (i : nat)
      (representations : dict Z tensor) (layer : Z) (t : tensor) :
  well_shaped strs i representations = true ->
  dict_get layer representations = Some t ->
  exists seq row,
    nth_error strs i = Some seq /\ nth_error t i = Some row
    /\ (String.length seq + 1 <= List.length row)%nat.
Proof.
  intros Hw Hget. apply dict_get_In in Hget.
  exact (row_ok_inv _ _ _ (well_shaped_In _ _ _ _ Hw Hget)).
Qed.

(** C4: with [per_tok] requested, the bundle handed to [torch.save] for
    sequence [i] holds, for every layer of the representations, the rows
    [1 .. len(strs[i])] of that layer's tensor for the sequence: the
    beginning-of-sequence position 0 and everything after the last residue
    are left out, and the slice is as long as the sequence has residues. *)
Theorem C4_per_tok_slice (a : args) (items : list (Z * tensor))
        (strs : list string) (i : nat) (label : string) (s : state) :
  let representations := to_cpu items in
  let file := joinpath (output_dir a) (label ++ ".pt")%string in
  included "per_tok" a = true ->
  included "npy_array" a = false ->
  io_ok (trace s) (Mkdir (parent file)) = true ->
  well_shaped strs i representations = true ->
  exists bundle dt e,
    trace (snd (process_sequence a representations strs (i, label) s))
    = trace s ++ [Done (Mkdir (parent file)); e]
    /\ attempt (TorchSave (Bundle bundle) file) e
    /\ dict_get "representations" bundle = Some (ETensors dt)
    /\ keys dt = keys representations
    /\ forall layer t,
         dict_get layer representations = Some t ->
         exists seq row m,
           nth_error strs i = Some seq
           /\ nth_error t i = Some row
           /\ dict_get layer dt = Some m
           /\ m = firstn (String.length seq) (skipn 1 row)
           /\ List.length m = String.length seq
           /\ forall k, (k < String.length seq)%nat ->
                nth_error m k = nth_error row (S k).
Proof.
  intros representations file Hper Hnpy Hmk Hw.
  destruct (process_sequence_bundle_log a items strs i label s Hnpy Hmk Hw)
    as (dt & dm & db & e & Ht & _ & _ & He & Htr & _).
  fold representations file in Ht, He, Htr.
  exists (bundle_of a label dt dm db), dt, e.
  split; [exact Htr|]. split; [exact He|]. split.
  { unfold bundle_of. rewrite Hper. reflexivity. }
  split; [exact (comprehension_keys _ _ _ Ht)|].
  intros layer t Hget.
  destruct (dict_get_tensor_row _ _ _ _ _ Hw Hget)
    as (seq & row & Hseq & Hrow & Hlen).
  destruct (comprehension_get _ _ _ _ _ Ht Hget) as (m & Hm & Hslice).
  rewrite (per_tok_slice_ok _ _ _ _ _ Hseq Hrow) in Hslice.
  injection Hslice as <-.
  exists seq, row, (py_slice 1 (String.length seq + 1) row).
  repeat split; try assumption.
  - unfold py_slice. f_equal. lia.
  - apply py_slice_length, Hlen.
  - intros k Hk. apply py_slice_nth, Hk.
Qed.

(** C5: with [mean] requested, the bundle holds for every layer one vector,
    the [.mean(0)] of rows [1 .. len(strs[i])] of the layer's tensor for
    the sequence; it is the mean of the very slice stored under
    "representations" when [per_tok] is requested too. *)
Theorem C5_mean_of_per_tok_slice (a : args) (items : list (Z * tensor))
        (strs : list string) (i : nat) (label : string) (s : state) :
  let representations := to_cpu items in
  let file := joinpath (output_dir a) (label ++ ".pt")%string in
  included "mean" a = true ->
  included "npy_array" a = false ->
  io_ok (trace s) (Mkdir (parent file)) = true ->
  well_shaped strs i representations = true ->
  exists bundle dm e,
    trace (snd (process_sequence a representations strs (i, label) s))
    = trace s ++ [Done (Mkdir (parent file)); e]
    /\ attempt (TorchSave (Bundle bundle) file) e
    /\ dict_get "mean_representations" bundle = Some (EVectors dm)
    /\ keys dm = keys representations
    /\ forall layer t,
         dict_get layer representations = Some t ->
         exists seq row,
           nth_error strs i = Some seq
           /\ nth_error t i = Some row
           /\ dict_get layer dm
              = Some (mean0 (firstn (String.length seq) (skipn 1 row)))
           /\ (included "per_tok" a = true ->
               exists dt,
                 dict_get "representations" bundle = Some (ETensors dt)
                 /\ dict_get layer dt
                    = Some (firstn (String.length seq) (skipn 1 row))).
Proof.
  intros representations file Hmean Hnpy Hmk Hw.
  destruct (process_sequence_bundle_log a items strs i label s Hnpy Hmk Hw)
    as (dt & dm & db & e & Ht & Hm & _ & He & Htr & _).
  fold representations file in Ht, Hm, He, Htr.
  exists (bundle_of a label dt dm db), dm, e.
  split; [exact Htr|]. split; [exact He|]. split.
  { unfold bundle_of. rewrite Hmean.
    destruct (included "per_tok" a); reflexivity. }
  split; [exact (comprehension_keys _ _ _ Hm)|].
  intros layer t Hget.
  destruct (dict_get_tensor_row _ _ _ _ _ Hw Hget)
    as (seq & row & Hseq & Hrow & Hlen).
  assert (py_slice 1 (String.length seq + 1) row
          = firstn (String.length seq) (skipn 1 row)) as Hpy
      by (unfold py_slice; f_equal; lia).
  exists seq, row. split; [exact Hseq|]. split; [exact Hrow|]. split.
  - destruct (comprehension_get _ _ _ _ _ Hm Hget) as (v & Hv & Hmean0).
    unfold mean_slice in Hmean0.
    rewrite (per_tok_slice_ok _ _ _ _ _ Hseq Hrow) in Hmean0.
    simpl in Hmean0. injection Hmean0 as <-. rewrite <- Hpy. exact Hv.
  - intros Hper. exists dt. split.
    + unfold bundle_of. rewrite Hper. reflexivity.
    + destruct (comprehension_get _ _ _ _ _ Ht Hget) as (m & Hgm & Hslice).
      rewrite (per_tok_slice_ok _ _ _ _ _ Hseq Hrow) in Hslice.
      injection Hslice as <-. rewrite <- Hpy. exact Hgm.
Qed.

(** C6: with [bos] requested, the bundle holds for every layer the vector
    at position 0 of the layer's tensor for the sequence, whatever the
    length of the sequence. *)
Theorem C6_bos_is_position_zero (a : args) (items : list (Z * tensor))
        (strs : list string) (i : nat) (label : string) (s : state) :
  let representations := to_cpu items in
  let file := joinpath (output_dir a) (label ++ ".pt")%string in
  included "bos" a = true ->
  included "npy_array" a = false ->
  io_ok (trace s) (Mkdir (parent file)) = true ->
  well_shaped strs i representations = true ->
  exists bundle db e,
    trace (snd (process_sequence a representations strs (i, label) s))
    = trace s ++ [Done (Mkdir (parent file)); e]
    /\ attempt (TorchSave (Bundle bundle) file) e
    /\ dict_get "bos_representations" bundle = Some (EVectors db)
    /\ keys db = keys representations
    /\ forall layer t,
         dict_get layer representations = Some t ->
         exists row v,
           nth_error t i = Some row
           /\ nth_error row 0 = Some v
           /\ dict_get layer db = Some v.
Proof.
  intros representations file Hbos Hnpy Hmk Hw.
  destruct (process_sequence_bundle_log a items strs i label s Hnpy Hmk Hw)
    as (dt & dm & db & e & _ & _ & Hb & He & Htr & _).
  fold representations file in Hb, He, Htr.
  exists (bundle_of a label dt dm db), db, e.
  split; [exact Htr|]. split; [exact He|]. split.
  { unfold bundle_of. rewrite Hbos.
    destruct (included "per_tok" a), (included "mean" a); reflexivity. }
  split; [exact (comprehension_keys _ _ _ Hb)|].
  intros layer t Hget.
  destruct (dict_get_tensor_row _ _ _ _ _ Hw Hget)
    as (seq & row & _ & Hrow & Hlen).
  destruct (comprehension_get _ _ _ _ _ Hb Hget) as (v & Hv & Hbv).
  unfold bos_slice, py_index in Hbv. rewrite Hrow in Hbv.
  exists row, v. split; [exact Hrow|]. split; [|exact Hv].
  destruct row as [|v0 row]; simpl in Hbv |- *;
    [discriminate | injection Hbv as ->; reflexivity].
Qed.

End BundleMode.

(** ** What an iteration leaves in the log *)

Section Log.
Context `{Disk}.

Lemma quiet_ret {A} (a : A) : quiet (ret a).
Proof. intros s. split; [reflexivity | discriminate]. Qed.

Lemma quiet_lift {A} (r : res A) : r <> Raise OSError -> quiet (lift r).
Proof. intros Hr s. split; [reflexivity | exact Hr]. Qed.

Lemma quiet_bind {A B} (c : M A) (k : A -> M B) :
  quiet c -> (forall a, quiet (k a)) -> quiet (bind c k).
Proof.
  intros Hc Hk s. unfold bind. specialize (Hc s).
  destruct (c s) as [[a|e] s1]; simpl in Hc; destruct Hc as [Htr Hne].
  - destruct (Hk a s1) as [Htr' Hne']. rewrite Htr', Htr. auto.
  - simpl. split; [exact Htr | intros [= ->]; apply Hne; reflexivity].
Qed.

Lemma quiet_when (b : bool) (c : M unit) : quiet c -> quiet (when b c).
Proof. destruct b; [auto | intros _; apply quiet_ret]. Qed.

Lemma quiet_for_each {A} (l : list A) (body : A -> M unit) :
  (forall x, quiet (body x)) -> quiet (for_each l body).
Proof.
  intros Hb. induction l as [|x l IH]; simpl.
  - apply quiet_ret.
  - apply quiet_bind; auto.
Qed.

Lemma quiet_get_result : quiet get_result.
Proof.
  intros s. unfold get_result.
  destruct (result s); split; (reflexivity || discriminate).
Qed.

Lemma quiet_set_result (v : pyval) : quiet (set_result v).
Proof. intros s. split; [reflexivity | discriminate]. Qed.

Lemma quiet_setitem (key : string) (value : entry) :
  quiet (setitem key value).
Proof.
  apply quiet_bind; [apply quiet_get_result|].
  intros [d|m|v];
    [apply quiet_set_result | apply quiet_lift; discriminate ..].
Qed.

Lemma quiet_detach_numpy : quiet detach_numpy.
Proof.
  apply quiet_bind; [apply quiet_get_result|].
  intros [d|m|v];
    [apply quiet_lift; discriminate | apply quiet_ret ..].
Qed.

(** Indexing and slicing raise nothing but [IndexError]. *)
Lemma per_tok_slice_raises (strs : list string) (i : nat) (t : tensor)
      (e : exn) :
  per_tok_slice strs i t = Raise e -> e = IndexError.
Proof.
  unfold per_tok_slice, py_index, res_bind.
  destruct (nth_error strs i); [|intros [= <-]; reflexivity].
  destruct (nth_error t i); [discriminate | intros [= <-]; reflexivity].
Qed.

Lemma mean_slice_raises (strs : list string) (i : nat) (t : tensor)
      (e : exn) :
  mean_slice strs i t = Raise e -> e = IndexError.
Proof.
  unfold mean_slice.
  destruct (per_tok_slice strs i t) eqn:E; simpl; [discriminate|].
  intros [= <-]. exact (per_tok_slice_raises _ _ _ _ E).
Qed.

Lemma bos_slice_raises (i : nat) (t : tensor) (e : exn) :
  bos_slice i t = Raise e -> e = IndexError.
Proof.
  unfold bos_slice, py_index, res_bind.
  destruct (nth_error t i) as [row|]; [|intros [= <-]; reflexivity].
  destruct (nth_error row 0); [discriminate | intros [= <-]; reflexivity].
Qed.

Lemma dict_comp_from_raises {K V W} `{Eqb K} (f : V -> res W)
      (items : list (K * V)) (acc : dict K W) (e : exn) :
  dict_comp_from f items acc = Raise e ->
  exists v, f v = Raise e.
Proof.
  revert acc. induction items as [|[k v] items IH]; intros acc; simpl.
  - discriminate.
  - destruct (f v) as [w|e'] eqn:E; simpl.
    + apply IH.
    + intros [= <-]. eauto.
Qed.

Lemma quiet_comprehension {W} (f : tensor -> res W)
      (representations : dict Z tensor) :
  (forall t e, f t = Raise e -> e = IndexError) ->
  quiet (lift (dict_comp f representations)).
Proof.
  intros Hf. apply quiet_lift. intros Habs.
  apply dict_comp_from_raises in Habs as [t Ht].
  apply Hf in Ht. discriminate.
Qed.

Lemma quiet_slice {W} (r : res W) :
  (forall e, r = Raise e -> e = IndexError) -> quiet (lift r).
Proof.
  intros Hr. apply quiet_lift. intros Habs. apply Hr in Habs. discriminate.
Qed.

Create HintDb quiet.
#[local] Hint Resolve quiet_ret quiet_when quiet_set_result quiet_setitem
  quiet_detach_numpy quiet_get_result quiet_for_each : quiet.

(** One step of a sequence of statements whose head is quiet. *)
Lemma bind_quiet_cases {A B} (c : M A) (k : A -> M B) (s : state) :
  quiet c ->
  (exists a s1, trace s1 = trace s /\ bind c k s = k a s1)
  \/ (exists e, e <> OSError /\ fst (bind c k s) = Raise e
                /\ trace (snd (bind c k s)) = trace s).
Proof.
  intros Hc. unfold bind. specialize (Hc s).
  destruct (c s) as [[a|e] s1]; simpl in Hc; destruct Hc as [Htr Hne].
  - left. eauto.
  - right. exists e. simpl.
    split; [intros ->; apply Hne; reflexivity | split; [reflexivity | exact Htr]].
Qed.

Lemma bind_syscall {B} (c : call) (k : unit -> M B) (s : state) :
  bind (syscall c) k s
  = if io_ok (trace s) c
    then k tt (log (Done c) s)
    else (Raise OSError, log (Failed c) s).
Proof. unfold bind, syscall. destruct (io_ok (trace s) c); reflexivity. Qed.

Ltac solve_quiet :=
  repeat first
    [ apply quiet_ret | apply quiet_set_result | apply quiet_setitem
    | apply quiet_detach_numpy | apply quiet_get_result
    | apply quiet_when
    | apply quiet_for_each; intros ?
    | apply quiet_bind; [|intros ?]
    | apply quiet_comprehension;
      first [ apply per_tok_slice_raises | apply mean_slice_raises
            | apply bos_slice_raises ]
    | apply quiet_slice;
      first [ apply per_tok_slice_raises | apply mean_slice_raises
            | apply bos_slice_raises ] ].

(** The four ways an iteration of extract_arrays.py can end: the directory
    cannot be made; selecting the output raises; the output is saved; the
    save fails. *)
Lemma process_sequence_log (a : args) (representations : dict Z tensor)
      (strs : list string) (i : nat) (label : string) (s : state) :
  let dir := Mkdir (parent (output_file a label)) in
  let r := process_sequence a representations strs (i, label) s in
  (fst r = Raise OSError /\ trace (snd r) = trace s ++ [Failed dir])
  \/ (exists e, e <> OSError /\ fst r = Raise e
                /\ trace (snd r) = trace s ++ [Done dir])
  \/ (exists v, fst r = Ok tt /\ result (snd r) = Some v
                /\ trace (snd r)
                   = trace s ++ [Done dir; Done (save_call a label v)])
  \/ (exists v, fst r = Raise OSError /\ result (snd r) = Some v
                /\ trace (snd r)
                   = trace s ++ [Done dir; Failed (save_call a label v)]).
Proof.
  intros dir r. subst r dir. unfold process_sequence.
  rewrite bind_syscall.
  destruct (io_ok (trace s) (Mkdir (parent (output_file a label)))).
  2:{ left. split; reflexivity. }
  right.
  set (s1 := log (Done (Mkdir (parent (output_file a label)))) s).
  assert (trace s1 = trace s ++ [Done (Mkdir (parent (output_file a label)))])
    as Hs1 by reflexivity.
  clearbody s1.
  repeat
    (match goal with
     | |- context [bind ?c ?k ?st] =>
         let Hq := fresh "Hq" in
         assert (quiet c) as Hq;
         [ | destruct (bind_quiet_cases c k st Hq)
               as [(? & s2 & Htr & ->)|(e & Hne & Hfst & Htr)];
             [ rewrite <- Htr in Hs1; clear Htr Hq; clear st; rename s2 into st
             | left; exists e; rewrite Hfst, Htr; auto ] ]
     end;
     [ destruct (negb (included "npy_array" a)); solve_quiet | ]).
  unfold save_call.
  destruct (negb (included "npy_array" a));
    unfold bind, get_result; destruct (result s1) as [v|] eqn:Hres;
    try (left; exists UnboundLocalError;
         split; [discriminate | split; [reflexivity | exact Hs1]]);
    right; unfold syscall;
    match goal with
    | |- context [io_ok ?tr ?c] => destruct (io_ok tr c)
    end;
    [ left | right | left | right ]; exists v; simpl;
    rewrite Hs1, <- app_assoc;
    (split; [reflexivity | split; [exact Hres | reflexivity]]).
Qed.

End Log.

(** ** The writer *)

Section Writer.
Context `{Disk}.

(** In bundle mode, an iteration that completes has saved the bundle with
    the label and one key per requested kind. *)
Lemma process_sequence_bundle_ok (a : args) (representations : dict Z tensor)
      (strs : list string) (i : nat) (label : string) (s : state) :
  included "npy_array" a = false ->
  fst (process_sequence a representations strs (i, label) s) = Ok tt ->
  exists dt dm db,
    result (snd (process_sequence a representations strs (i, label) s))
    = Some (Bundle (bundle_of a label dt dm db))
    /\ (included "per_tok" a = true ->
        dict_comp (per_tok_slice strs i) representations = Ok dt)
    /\ (included "mean" a = true ->
        dict_comp (mean_slice strs i) representations = Ok dm)
    /\ (included "bos" a = true ->
        dict_comp (bos_slice i) representations = Ok db).
Proof.
  intros Hnpy. unfold process_sequence, bundle_of. rewrite Hnpy.
  rewrite bind_syscall.
  destruct (io_ok _ _); [|discriminate].
  unfold when, bind, lift, setitem, get_result, set_result, bind, syscall.
  simpl negb. cbv iota.
  destruct (included "per_tok" a);
    [destruct (dict_comp (per_tok_slice strs i) representations) as [dt|]
       eqn:Et; [|discriminate]|];
    (destruct (included "mean" a);
     [destruct (dict_comp (mean_slice strs i) representations) as [dm|]
        eqn:Em; [|discriminate]|]);
    (destruct (included "bos" a);
     [destruct (dict_comp (bos_slice i) representations) as [db|]
        eqn:Eb; [|discriminate]|]);
    simpl;
    match goal with
    | |- context [io_ok ?tr ?c] => destruct (io_ok tr c)
    end; try discriminate; intros _.
  - exists dt, dm, db. auto.
  - exists dt, dm, []. repeat split; auto; discriminate.
  - exists dt, [], db. repeat split; auto; discriminate.
  - exists dt, [], []. repeat split; auto; discriminate.
  - exists [], dm, db. repeat split; auto; discriminate.
  - exists [], dm, []. repeat split; auto; discriminate.
  - exists [], [], db. repeat split; auto; discriminate.
  - exists [], [], []. repeat split; auto; discriminate.
Qed.

(** The loop [for layer, t in representations.items(): result = t[i, ...]]
    ends with the slice of the last item. *)
Lemma overwrite_loop_last (strs : list string) (i : nat)
      (init : dict Z tensor) (layer : Z) (t : tensor) (m : list vec) :
  (forall lt, In lt init -> exists m0, per_tok_slice strs i (snd lt) = Ok m0) ->
  per_tok_slice strs i t = Ok m ->
  forall s,
    for_each (init ++ [(layer, t)])
      (fun lt => m <- lift (per_tok_slice strs i (snd lt)) ;;
                 set_result (Array m)) s
    = (Ok tt, {| result := Some (Array m); res_ := res_ s;
                 trace := trace s |}).
Proof.
  intros Hinit Hm. induction init as [|lt init IH]; intros s; simpl.
  - unfold bind, lift, set_result, ret. simpl. rewrite Hm. reflexivity.
  - destruct (Hinit lt (or_introl eq_refl)) as [m0 Hm0].
    unfold bind at 1. unfold bind at 1. unfold lift at 1. rewrite Hm0.
    unfold set_result at 1.
    rewrite IH; [reflexivity|].
    intros lt' Hin. apply Hinit. right. exact Hin.
Qed.

Lemma overwrite_loop_array (strs : list string) (i : nat)
      (representations : dict Z tensor) :
  representations <> [] ->
  forall s s',
    for_each representations
      (fun lt => m <- lift (per_tok_slice strs i (snd lt)) ;;
                 set_result (Array m)) s = (Ok tt, s') ->
    exists m, result s' = Some (Array m).
Proof.
  induction representations as [|lt l IH]; intros Hne s s'; [contradiction|].
  simpl. unfold bind at 1. unfold bind at 1. unfold lift at 1.
  destruct (per_tok_slice strs i (snd lt)) as [m|e]; [|discriminate].
  unfold set_result at 1.
  destruct l as [|lt' l].
  - simpl. unfold ret. intros [= <-]. simpl. eauto.
  - apply IH. discriminate.
Qed.

(** In raw-array mode the [mean] and [bos] branches do nothing: the body is
    the directory, the overwriting loop when [per_tok] is requested, and
    [np.save]. *)
Lemma process_sequence_npy (a : args) (representations : dict Z tensor)
      (strs : list string) (i : nat) (label : string) (s : state) :
  included "npy_array" a = true ->
  process_sequence a representations strs (i, label) s
  = (syscall (Mkdir (parent (joinpath (output_dir a) label))) ;;;
     when (included "per_tok" a)
       (for_each representations (fun lt =>
          m <- lift (per_tok_slice strs i (snd lt)) ;;
          set_result (Array m)) ;;;
        detach_numpy) ;;;
     (r <- get_result ;;
      syscall (NpSave (joinpath (output_dir a) label) r))) s.
Proof.
  intros Hnpy. unfold process_sequence, output_file. rewrite Hnpy.
  simpl negb. cbv iota. rewrite !bind_syscall.
  destruct (io_ok _ _); [|reflexivity].
  unfold when at 1. unfold bind at 1. unfold ret at 1.
  unfold bind at 1. symmetry. unfold bind at 1. symmetry.
  destruct (when (included "per_tok" a) _ _) as [[[]|e] s1]; [|reflexivity].
  unfold when.
  destruct (included "mean" a), (included "bos" a); reflexivity.
Qed.

(** In raw-array mode with [per_tok], an iteration that completes over a
    non-empty dictionary has saved a two-dimensional array. *)
Lemma process_sequence_npy_array (a : args) (representations : dict Z tensor)
      (strs : list string) (i : nat) (label : string) (s : state) :
  included "npy_array" a = true ->
  included "per_tok" a = true ->
  representations <> [] ->
  fst (process_sequence a representations strs (i, label) s) = Ok tt ->
  exists m,
    result (snd (process_sequence a representations strs (i, label) s))
    = Some (Array m).
Proof.
  intros Hnpy Hper Hne.
  destruct (process_sequence a representations strs (i, label) s)
    as [r s'] eqn:Erun.
  simpl. intros ->.
  rewrite (process_sequence_npy a representations strs i label s Hnpy) in Erun.
  rewrite Hper, bind_syscall in Erun.
  destruct (io_ok _ _); [|discriminate].
  unfold when in Erun. unfold bind at 1 in Erun. unfold bind at 1 in Erun.
  destruct (for_each representations _ _) as [[[]|e] s1] eqn:Eloop;
    [|discriminate].
  destruct (overwrite_loop_array strs i representations Hne _ _ Eloop)
    as [m Hm].
  unfold detach_numpy, bind, get_result, ret, syscall in Erun.
  rewrite Hm in Erun. cbv beta iota in Erun. rewrite Hm in Erun.
  destruct (io_ok _ _); [|discriminate].
  injection Erun as <-. simpl. eauto.
Qed.

End Writer.

(** ** Whole runs *)

Section Main.
Context `{Disk}.

Lemma bind_ok_inv {A} (c : M A) (k : A -> M unit) (s : state) :
  fst (bind c k s) = Ok tt ->
  exists a s1, c s = (Ok a, s1) /\ fst (k a s1) = Ok tt.
Proof.
  unfold bind. destruct (c s) as [[a|e] s1]; [eauto | discriminate].
Qed.

Lemma for_each_first_raises {A} (x : A) (l : list A) (body : A -> M unit)
      (s s' : state) (e : exn) :
  body x s = (Raise e, s') ->
  for_each (x :: l) body s = (Raise e, s').
Proof. intros Hx. simpl. unfold bind. rewrite Hx. reflexivity. Qed.

(** A run of extract_arrays.py whose first sequence raises: the output
    directory is made, the layers are normalised, the first batch goes
    through the model, and the exception of the first iteration ends the
    run. *)
Lemma main_arrays_first_raises (a : args) (L : Z) (b : batch)
      (batches : list batch) (label : string) (rest : list string)
      (s s' : state) (e : exn) :
  let layers := map (canonical L) (repr_layers a) in
  Forall (fun i => - (L + 1) <= i <= L) (repr_layers a) ->
  io_ok (trace s) (Mkdir (output_dir a)) = true ->
  labels b = label :: rest ->
  process_sequence a (to_cpu (forward (toks b) layers)) (strs b) (0%nat, label)
    (log (Done (Forward (toks b) layers)) (log (Done (Mkdir (output_dir a))) s))
  = (Raise e, s') ->
  main_arrays a L (b :: batches) s = (Raise e, s').
Proof.
  intros layers Hvalid Hmk Hlabels Hfirst. unfold main_arrays.
  rewrite bind_syscall, Hmk. unfold bind at 1. unfold lift.
  rewrite (normalize_layers_valid L _ Hvalid). fold layers.
  apply for_each_first_raises. unfold process_batch, bind, model_call.
  rewrite Hlabels. unfold enumerate. simpl combine.
  rewrite (for_each_first_raises _ _ _ _ _ _ Hfirst). reflexivity.
Qed.

Lemma main_myseq_first_raises (a : args) (L : Z) (b : batch)
      (batches : list batch) (files : list (list batch))
      (label : string) (rest : list string) (s s' : state) (e : exn) :
  let layers := map (canonical L) (repr_layers a) in
  Forall (fun i => - (L + 1) <= i <= L) (repr_layers a) ->
  io_ok (trace s) (Mkdir (output_dir a)) = true ->
  labels b = label :: rest ->
  process_sequence_myseq a (to_cpu (forward (toks b) layers)) (strs b)
    (0%nat, label)
    (log (Done (Forward (toks b) layers)) (log (Done (Mkdir (output_dir a))) s))
  = (Raise e, s') ->
  main_myseq a L ((b :: batches) :: files) s = (Raise e, s').
Proof.
  intros layers Hvalid Hmk Hlabels Hfirst. unfold main_myseq.
  apply for_each_first_raises.
  rewrite bind_syscall, Hmk. unfold bind at 1. unfold lift.
  rewrite (normalize_layers_valid L _ Hvalid). fold layers.
  apply for_each_first_raises. unfold process_batch, bind, model_call.
  rewrite Hlabels. unfold enumerate. simpl combine.
  rewrite (for_each_first_raises _ _ _ _ _ _ Hfirst). reflexivity.
Qed.

Lemma saved_paths_app (tr1 tr2 : list entry_log) :
  saved_paths (tr1 ++ tr2) = saved_paths tr1 ++ saved_paths tr2.
Proof. unfold saved_paths. apply flat_map_app. Qed.

Lemma saves_app (tr1 tr2 : list entry_log) :
  saves (tr1 ++ tr2) = saves tr1 ++ saves tr2.
Proof. unfold saves. apply flat_map_app. Qed.

(** extract-myseq.py: no iteration completes, since [torch.save(result, ...)]
    evaluates the unbound name at the latest. *)
Lemma process_sequence_myseq_never_completes (a : args)
      (representations : dict Z tensor) (strs : list string)
      (il : nat * string) (s : state) :
  fst (process_sequence_myseq a representations strs il s) <> Ok tt.
Proof.
  destruct il as [i label]. unfold process_sequence_myseq. intros Hok.
  repeat (apply bind_ok_inv in Hok as (? & ? & ? & Hok)).
  match goal with
  | Hg : global_result _ = _ |- _ =>
      unfold global_result, lift in Hg; discriminate Hg
  end.
Qed.

(** C7, as amended: an iteration of extract_arrays.py that completes has
    made the parent directory of its output file and then saved exactly
    one file.  Without [npy_array] the file is the output directory joined
    with the label followed by ".pt" and holds the bundle with the label
    and one mapping per requested kind; with [npy_array] the path handed
    to [np.save] is the output directory joined with the label and the
    content is the value of [result], a two-dimensional array when
    [per_tok] is requested over a non-empty dictionary.  In
    extract-myseq.py no iteration completes. *)
Theorem C7_one_file_per_sequence (a : args) (representations : dict Z tensor)
        (strs : list string) (i : nat) (label : string) (s : state) :
  (fst (process_sequence a representations strs (i, label) s) = Ok tt ->
   exists v,
     trace (snd (process_sequence a representations strs (i, label) s))
     = trace s ++ [Done (Mkdir (parent (output_file a label)));
                   Done (save_call a label v)]
     /\ saved_paths
          (trace (snd (process_sequence a representations strs (i, label) s)))
        = saved_paths (trace s) ++ [output_file a label]
     /\ (included "npy_array" a = false ->
         output_file a label
         = joinpath (output_dir a) (label ++ ".pt")%string
         /\ save_call a label v = TorchSave v (output_file a label)
         /\ exists dt dm db,
              v = Bundle (bundle_of a label dt dm db)
              /\ dict_get "label" (bundle_of a label dt dm db)
                 = Some (ELabel label))
     /\ (included "npy_array" a = true ->
         output_file a label = joinpath (output_dir a) label
         /\ save_call a label v = NpSave (output_file a label) v
         /\ (included "per_tok" a = true -> representations <> [] ->
             exists m, v = Array m)))
  /\ fst (process_sequence_myseq a representations strs (i, label) s) <> Ok tt.
Proof.
  split; [|apply process_sequence_myseq_never_completes].
  intros Hok.
  destruct (process_sequence_log a representations strs i label s)
    as [[Hf _]|[(e & _ & Hf & _)|[(v & _ & Hres & Htr)|(v & Hf & _)]]];
    try congruence.
  exists v. split; [exact Htr|]. split.
  { rewrite Htr, saved_paths_app. f_equal. unfold save_call. simpl.
    destruct (negb (included "npy_array" a)); reflexivity. }
  split.
  - intros Hnpy. unfold save_call, output_file. rewrite Hnpy. simpl.
    split; [reflexivity|]. split; [reflexivity|].
    destruct (process_sequence_bundle_ok a representations strs i label s
                Hnpy Hok) as (dt & dm & db & Hb & _).
    exists dt, dm, db. split; [congruence | reflexivity].
  - intros Hnpy. unfold save_call, output_file. rewrite Hnpy. simpl.
    split; [reflexivity|]. split; [reflexivity|].
    intros Hper Hne.
    destruct (process_sequence_npy_array a representations strs i label s
                Hnpy Hper Hne Hok) as [m Hm].
    exists m. congruence.
Qed.

End Main.

(** ** Raw-array mode *)

Section RawArray.
Context `{Disk}.

(** C1: with [npy_array] and [per_tok], [result] is overwritten once per
    item of the representations in iteration order, so the one array handed
    to [np.save] for the sequence is rows [1 .. len(strs[i])] of the tensor
    of the last item; the earlier layers leave no trace, and [mean] and
    [bos] add nothing. *)
Theorem C1_raw_array_keeps_last_layer (a : args)
        (representations init : dict Z tensor) (layer : Z) (t : tensor)
        (strs : list string) (i : nat) (label : string) (s : state) :
  let file := joinpath (output_dir a) label in
  included "npy_array" a = true ->
  included "per_tok" a = true ->
  representations = init ++ [(layer, t)] ->
  io_ok (trace s) (Mkdir (parent file)) = true ->
  well_shaped strs i representations = true ->
  exists seq row e,
    nth_error strs i = Some seq
    /\ nth_error t i = Some row
    /\ attempt
         (NpSave file (Array (firstn (String.length seq) (skipn 1 row)))) e
    /\ trace (snd (process_sequence a representations strs (i, label) s))
       = trace s ++ [Done (Mkdir (parent file)); e]
    /\ result (snd (process_sequence a representations strs (i, label) s))
       = Some (Array (firstn (String.length seq) (skipn 1 row))).
Proof.
  intros file Hnpy Hper Hreps Hmk Hw.
  assert (In (layer, t) representations) as Hin
      by (rewrite Hreps; apply in_or_app; right; left; reflexivity).
  destruct (row_ok_inv _ _ _ (well_shaped_In _ _ _ _ Hw Hin))
    as (seq & row & Hseq & Hrow & Hlen).
  simpl in Hseq, Hrow.
  pose proof (per_tok_slice_ok _ _ _ _ _ Hseq Hrow) as Hm.
  replace (py_slice 1 (String.length seq + 1) row)
    with (firstn (String.length seq) (skipn 1 row)) in Hm
    by (unfold py_slice; f_equal; lia).
  exists seq, row.
  remember (firstn (String.length seq) (skipn 1 row)) as m eqn:Em. clear Em.
  assert (process_sequence a representations strs (i, label) s
          = syscall (NpSave file (Array m))
              {| result := Some (Array m); res_ := res_ s;
                 trace := trace s ++ [Done (Mkdir (parent file))] |})
    as Hrun.
  { rewrite (process_sequence_npy a representations strs i label s Hnpy).
    fold file. rewrite Hper, bind_syscall, Hmk.
    unfold when. unfold bind at 1. unfold bind at 1.
    rewrite Hreps.
    rewrite (overwrite_loop_last strs i init layer t _) with (2 := Hm).
    2:{ intros lt Hlt. apply (per_tok_defined _ _ _ Hw).
        rewrite Hreps. apply in_or_app. left. exact Hlt. }
    reflexivity. }
  rewrite Hrun. unfold syscall. simpl trace.
  destruct (io_ok (trace s ++ _) _); eexists; simpl;
    (split; [exact Hseq|]; split; [exact Hrow|]; split;
     [|split; [rewrite <- app_assoc|]; reflexivity]);
    [left | right]; reflexivity.
Qed.

(** C10: with [npy_array] and without [per_tok] nothing assigns [result]
    before [np.save(args.output_file, result)].  An iteration entered with
    [result] unbound raises [UnboundLocalError], a [NameError], without
    saving; entered with [result] bound, it saves that old value under the
    new label.  The first iteration of a run is entered with [result]
    unbound, so the run ends there. *)
Theorem C10_result_never_assigned (a : args)
        (representations : dict Z tensor) (seqs : list string) (i : nat)
        (label : string) (s : state) :
  let file := joinpath (output_dir a) label in
  included "npy_array" a = true ->
  included "per_tok" a = false ->
  (io_ok (trace s) (Mkdir (parent file)) = true ->
   result s = None ->
   process_sequence a representations seqs (i, label) s
   = (Raise UnboundLocalError, log (Done (Mkdir (parent file))) s)
   /\ is_NameError UnboundLocalError = true)
  /\ (io_ok (trace s) (Mkdir (parent file)) = true ->
      forall v, result s = Some v ->
      process_sequence a representations seqs (i, label) s
      = syscall (NpSave file v) (log (Done (Mkdir (parent file))) s))
  /\ (forall L b batches rest,
      let layers := map (canonical L) (repr_layers a) in
      Forall (fun j => - (L + 1) <= j <= L) (repr_layers a) ->
      labels b = label :: rest ->
      io_ok (trace s) (Mkdir (output_dir a)) = true ->
      io_ok (trace s ++ [Done (Mkdir (output_dir a));
                         Done (Forward (toks b) layers)])
            (Mkdir (parent file)) = true ->
      result s = None ->
      main_arrays a L (b :: batches) s
      = (Raise UnboundLocalError,
         {| result := None; res_ := res_ s;
            trace := trace s ++ [Done (Mkdir (output_dir a));
                                 Done (Forward (toks b) layers);
                                 Done (Mkdir (parent file))] |})).
Proof.
  intros file Hnpy Hper.
  assert (forall reps sq k st,
            io_ok (trace st) (Mkdir (parent file)) = true ->
            process_sequence a reps sq (k, label) st
            = match result st with
              | Some v => syscall (NpSave file v)
                            (log (Done (Mkdir (parent file))) st)
              | None => (Raise UnboundLocalError,
                         log (Done (Mkdir (parent file))) st)
              end) as Hrun.
  { intros reps sq k st Hst.
    rewrite (process_sequence_npy a reps sq k label st Hnpy).
    fold file. rewrite Hper, bind_syscall, Hst.
    unfold when, bind, ret, get_result. simpl.
    destruct (result st); reflexivity. }
  split; [|split].
  - intros Hmk Hres. rewrite (Hrun _ _ _ s Hmk), Hres. split; reflexivity.
  - intros Hmk v Hres. rewrite (Hrun _ _ _ s Hmk), Hres. reflexivity.
  - intros L b batches rest layers Hvalid Hlabels Hout Hmk Hres.
    apply (main_arrays_first_raises a L b batches label rest s _ _
             Hvalid Hout Hlabels).
    fold layers. rewrite Hrun.
    + unfold log. simpl. rewrite Hres. f_equal. f_equal.
      rewrite <- !app_assoc. reflexivity.
    + simpl. rewrite <- app_assoc. exact Hmk.
Qed.

End RawArray.

(** ** Failures *)

Section Failures.
Context `{Disk}.

(** C8: when the filesystem refuses a call while sequence [n] of a batch
    is written, the loops over the sequences and over the batches end with
    that [OSError]: the log is the log up to sequence [n - 1] followed by
    the calls of sequence [n], the refused one last; the files saved are
    those saved before, nothing is undone, nothing else is recorded,
    nothing is tried again. *)
Theorem C8_no_recovery (a : args) (layers : list Z)
        (earlier later : list batch) (b : batch)
        (done todo : list (nat * string)) (n : nat) (label : string)
        (s s0 sN : state) :
  let representations := to_cpu (forward (toks b) layers) in
  let body := process_sequence a representations (strs b) in
  let final := snd (body (n, label) sN) in
  for_each earlier (process_batch (process_sequence a) layers) s = (Ok tt, s0) ->
  enumerate (labels b) = done ++ (n, label) :: todo ->
  for_each done body (log (Done (Forward (toks b) layers)) s0) = (Ok tt, sN) ->
  fst (body (n, label) sN) = Raise OSError ->
  for_each (earlier ++ b :: later)
    (process_batch (process_sequence a) layers) s
  = (Raise OSError, final)
  /\ saves (trace final) = saves (trace sN)
  /\ exists c,
       trace final = trace sN ++ [Failed c]
       \/ trace final
          = trace sN ++ [Done (Mkdir (parent (output_file a label)));
                         Failed c].
Proof.
  intros representations body final Hearlier Henum Hdone Hfail.
  assert (body (n, label) sN = (Raise OSError, final)) as Hbody.
  { subst final. rewrite <- Hfail. apply surjective_pairing. }
  split; [|].
  - apply (for_each_stops earlier later b _ s s0 final OSError Hearlier).
    unfold process_batch, bind, model_call. fold representations. fold body.
    rewrite Henum.
    apply (for_each_stops done todo (n, label) body _ sN final OSError Hdone).
    exact Hbody.
  - destruct (process_sequence_log a representations (strs b) n label sN)
      as [[_ Htr]|[(e & Hne & Hf & _)|[(v & Hf & _)|(v & _ & _ & Htr)]]];
      unfold final, body in *.
    + rewrite Htr, saves_app. simpl. rewrite app_nil_r.
      split; [reflexivity | eauto].
    + rewrite Hfail in Hf. injection Hf as <-. contradiction.
    + rewrite Hfail in Hf. discriminate.
    + rewrite Htr, saves_app. simpl. rewrite app_nil_r.
      split; [reflexivity | eauto].
Qed.

Lemma included_In (x : string) (a : args) :
  In x (include a) -> included x a = true.
Proof.
  intros Hin. unfold included. apply existsb_exists.
  exists x. split; [exact Hin | apply String.eqb_refl].
Qed.

(** What argparse guarantees for extract-myseq.py: [--include] is required
    with [nargs="+"] and [choices=["mean", "per_tok", "bos"]]. *)
Lemma some_kind_included (a : args) :
  include a <> [] ->
  Forall (fun k => In k ["mean"; "per_tok"; "bos"]%string) (include a) ->
  included "per_tok" a = true \/ included "mean" a = true
  \/ included "bos" a = true.
Proof.
  intros Hne Hall. destruct (include a) as [|k ks] eqn:E; [contradiction|].
  inversion Hall as [|? ? Hk _]; subst.
  assert (In k (include a)) as Hin by (rewrite E; left; reflexivity).
  simpl in Hk. destruct Hk as [<-|[<-|[<-|[]]]]; auto using included_In.
Qed.

Lemma dict_comp_defined {V W} (f : V -> res W) (items : dict Z V) :
  (forall kv, In kv items -> exists w, f (snd kv) = Ok w) ->
  exists d, dict_comp f items = Ok d.
Proof.
  unfold dict_comp. generalize (@nil (Z * W)).
  induction items as [|[k v] items IH]; intros acc Hf; simpl.
  - eauto.
  - destruct (Hf (k, v) (or_introl eq_refl)) as [w Hw]. simpl in Hw.
    rewrite Hw. simpl. apply IH. intros kv Hkv. apply Hf. right. exact Hkv.
Qed.

(** The loop [for layer, t in representations.items(): res = ...mean(0)]
    of extract-myseq.py on well-shaped tensors. *)
Lemma res_loop (strs : list string) (i : nat)
      (representations : dict Z tensor) :
  (forall lt, In lt representations ->
              exists v, mean_slice strs i (snd lt) = Ok v) ->
  forall s, exists s',
    for_each representations
      (fun lt => v <- lift (mean_slice strs i (snd lt)) ;;
                 set_res (Vector v)) s = (Ok tt, s')
    /\ trace s' = trace s
    /\ ((forall d, res_ s <> Some (Bundle d)) ->
        forall d, res_ s' <> Some (Bundle d)).
Proof.
  induction representations as [|lt l IH]; intros Hdef s; simpl.
  - exists s. auto.
  - destruct (Hdef lt (or_introl eq_refl)) as [v Hv].
    unfold bind at 1. unfold bind at 1. unfold lift at 1. rewrite Hv.
    unfold set_res at 1.
    destruct (IH (fun lt' Hlt' => Hdef lt' (or_intror Hlt'))
                {| result := result s; res_ := Some (Vector v);
                   trace := trace s |}) as (s' & Hrun & Htr & Hres).
    exists s'. split; [exact Hrun|]. split; [exact Htr|].
    intros _. apply Hres. simpl. discriminate.
Qed.

Lemma process_sequence_myseq_raises (a : args)
      (representations : dict Z tensor) (strs : list string) (i : nat)
      (label : string) (s : state) :
  let dir := Mkdir (parent (joinpath (output_dir a) label)) in
  included "per_tok" a = true \/ included "mean" a = true
  \/ included "bos" a = true ->
  well_shaped strs i representations = true ->
  io_ok (trace s) dir = true ->
  (forall d, res_ s <> Some (Bundle d)) ->
  exists e s',
    process_sequence_myseq a representations strs (i, label) s = (Raise e, s')
    /\ is_NameError e = true
    /\ trace s' = trace s ++ [Done dir].
Proof.
  intros dir Hkind Hw Hmk Hres0. unfold process_sequence_myseq.
  rewrite bind_syscall. fold dir. rewrite Hmk.
  set (s1 := log (Done dir) s).
  destruct (dict_comp_defined (per_tok_slice strs i) representations
              (per_tok_defined _ _ _ Hw)) as [dt Et].
  destruct (dict_comp_defined (mean_slice strs i) representations
              (mean_defined _ _ _ Hw)) as [dm Em].
  destruct (dict_comp_defined (bos_slice i) representations
              (bos_defined _ _ _ Hw)) as [db Eb].
  destruct (included "per_tok" a) eqn:Hper.
  { exists NameError, s1. unfold when, bind, lift, setitem_myseq,
      global_result, bind, lift. rewrite Et. auto. }
  destruct (included "mean" a) eqn:Hmean.
  { exists NameError, s1. unfold when, bind, lift, setitem_myseq,
      global_result, bind, lift, ret. rewrite Em. auto. }
  destruct Hkind as [Habs|[Habs|Hbos]]; try discriminate.
  rewrite Hbos. unfold when at 1 2. unfold bind at 1. unfold ret at 1.
  unfold bind at 1. unfold ret at 1. unfold bind at 1.
  destruct (res_loop strs i representations (mean_defined _ _ _ Hw) s1)
    as (s2 & Hloop & Htr & Hres).
  rewrite Hloop.
  unfold bind at 1. unfold detach_numpy_res, bind at 1, get_res.
  destruct (res_ s2) as [[d|m|v]|] eqn:Er.
  - exfalso. apply (Hres Hres0 d). reflexivity.
  - exists NameError, s2. unfold ret, when, bind, lift, setitem_myseq,
      global_result, bind, lift. rewrite Eb. rewrite Htr. auto.
  - exists NameError, s2. unfold ret, when, bind, lift, setitem_myseq,
      global_result, bind, lift. rewrite Eb. rewrite Htr. auto.
  - exists UnboundLocalError, s2. rewrite Htr. auto.
Qed.

(** C9: in extract-myseq.py every run that reaches the loop over the
    sequences ends in the first iteration with a [NameError] (the name
    [result] is unbound; with [bos] alone and no representation it is
    [res], an [UnboundLocalError]); no file is saved. *)
Theorem C9_myseq_first_sequence_raises (a : args) (L : Z) (b : batch)
        (batches : list batch) (files : list (list batch))
        (label : string) (rest : list string) (s : state) :
  let layers := map (canonical L) (repr_layers a) in
  let dir := Mkdir (parent (joinpath (output_dir a) label)) in
  include a <> [] ->
  Forall (fun k => In k ["mean"; "per_tok"; "bos"]%string) (include a) ->
  Forall (fun j => - (L + 1) <= j <= L) (repr_layers a) ->
  labels b = label :: rest ->
  well_shaped (strs b) 0 (to_cpu (forward (toks b) layers)) = true ->
  io_ok (trace s) (Mkdir (output_dir a)) = true ->
  io_ok (trace s ++ [Done (Mkdir (output_dir a));
                     Done (Forward (toks b) layers)]) dir = true ->
  res_ s = None ->
  exists e s',
    main_myseq a L ((b :: batches) :: files) s = (Raise e, s')
    /\ is_NameError e = true
    /\ trace s' = trace s ++ [Done (Mkdir (output_dir a));
                              Done (Forward (toks b) layers);
                              Done dir]
    /\ saves (trace s') = saves (trace s).
Proof.
  intros layers dir Hne Hchoices Hvalid Hlabels Hw Hout Hmk Hres.
  destruct (process_sequence_myseq_raises a
              (to_cpu (forward (toks b) layers)) (strs b) 0 label
              (log (Done (Forward (toks b) layers))
                   (log (Done (Mkdir (output_dir a))) s))
              (some_kind_included a Hne Hchoices) Hw)
    as (e & s' & Hrun & He & Htr).
  - simpl. rewrite <- app_assoc. exact Hmk.
  - simpl. rewrite Hres. discriminate.
  - exists e, s'. split.
    + apply (main_myseq_first_raises a L b batches files label rest s s' e
               Hvalid Hout Hlabels Hrun).
    + split; [exact He|]. simpl in Htr. rewrite <- !app_assoc in Htr.
      split; [exact Htr|]. rewrite Htr, saves_app. simpl.
      apply app_nil_r.
Qed.

End Failures.

(** * Further properties of the scripts *)

(** ** The normaliser, on every input *)

Lemma forallb_false_Exists {A} (f : A -> bool) (l : list A) :
  forallb f l = false -> Exists (fun x => f x = false) l.
Proof.
  induction l as [|x l IH]; simpl; [discriminate|].
  destruct (f x) eqn:E; simpl.
  - intros Hl. apply Exists_cons_tl, IH, Hl.
  - intros _. apply Exists_cons_hd, E.
Qed.

(** The two outcomes of the normaliser. *)
Lemma normalize_layers_cases (L : Z) (l : list Z) :
  (forall e, normalize_layers L l = Raise e ->
     e = AssertionError /\ Exists (fun i => ~ - (L + 1) <= i <= L) l)
  /\ (forall l', normalize_layers L l = Ok l' ->
        Forall (fun i => - (L + 1) <= i <= L) l
        /\ l' = map (canonical L) l
        /\ List.length l' = List.length l).
Proof.
  unfold normalize_layers. destruct (forallb (in_range L) l) eqn:E.
  - apply forallb_in_range in E. rewrite (list_comp_canonical L l E).
    split; [discriminate|].
    intros l' [= <-]. rewrite length_map. auto.
  - split; [|discriminate].
    intros e [= <-]. split; [reflexivity|].
    apply forallb_false_Exists in E. revert E. apply Exists_impl.
    intros i Hi Hin. apply in_range_iff in Hin. congruence.
Qed.

(** X1: the normaliser fails only by its assertion, and exactly when an
    index is out of range; a zero modulus (a model with [num_layers = -1])
    is never reached.  When it succeeds, every index was in range and the
    result lists the canonical indices in the same order, duplicates
    included. *)
Theorem normalize_layers_outcome (L : Z) (l : list Z) :
  (forall e, normalize_layers L l = Raise e ->
     e = AssertionError /\ Exists (fun i => ~ - (L + 1) <= i <= L) l)
  /\ (forall l', normalize_layers L l = Ok l' ->
        Forall (fun i => - (L + 1) <= i <= L) l
        /\ l' = map (canonical L) l
        /\ List.length l' = List.length l).
Proof. exact (normalize_layers_cases L l). Qed.

Lemma canonical_fixed (L c : Z) : 0 <= c <= L -> canonical L c = c.
Proof.
  intros Hc. rewrite canonical_cases by lia.
  destruct (Z.ltb_spec c 0); [lia | reflexivity].
Qed.

(** X2: normalising twice is normalising once: the canonical indices are
    valid and are their own canonical form. *)
Theorem normalize_layers_idempotent (L : Z) (l l' : list Z) :
  normalize_layers L l = Ok l' -> normalize_layers L l' = Ok l'.
Proof.
  intros Hn.
  destruct (proj2 (normalize_layers_cases L l) l' Hn) as (Hvalid & -> & _).
  assert (Forall (fun c => 0 <= c <= L) (map (canonical L) l)) as Hc.
  { apply Forall_map. revert Hvalid. apply Forall_impl.
    intros i Hi. apply (canonical_bounds L i Hi). }
  rewrite normalize_layers_valid.
  - f_equal. rewrite <- (map_id (map (canonical L) l)) at 2.
    apply map_ext_in. intros c Hin. rewrite Forall_forall in Hc.
    apply canonical_fixed, Hc, Hin.
  - revert Hc. apply Forall_impl. intros c Hc. lia.
Qed.

(** X3: on a valid list the normaliser leaves the non-negative indices as
    they are and counts the negative ones from the end, [-1] being layer
    [L], the default of [--repr_layers]. *)
Theorem normalize_layers_from_the_end (L : Z) (l : list Z) :
  Forall (fun i => - (L + 1) <= i <= L) l ->
  normalize_layers L l
  = Ok (map (fun i => if i <? 0 then i + (L + 1) else i) l)
  /\ (0 <= L -> normalize_layers L [-1] = Ok [L]).
Proof.
  intros Hvalid. split.
  - rewrite (normalize_layers_valid L l Hvalid). f_equal.
    apply map_ext_in. intros i Hin. rewrite Forall_forall in Hvalid.
    apply canonical_cases, Hvalid, Hin.
  - intros HL. rewrite normalize_layers_valid
      by (constructor; [lia | constructor]).
    simpl map. assert (- (L + 1) <= -1 <= L) as H1 by lia.
    rewrite (canonical_cases L (-1) H1).
    change (-1 <? 0) with true. cbv iota. f_equal. f_equal. lia.
Qed.

(** ** Moving the representations to the CPU *)

Section ToCpu.
Context `{Externals}.

Lemma dict_of_items_fresh {V} (items acc : dict Z V) :
  NoDup (keys items) ->
  (forall k, In k (keys items) -> ~ In k (keys acc)) ->
  fold_left (fun acc kv => dict_set (fst kv) (snd kv) acc) items acc
  = acc ++ items.
Proof.
  revert acc. induction items as [|[k v] items IH]; intros acc Hnd Hfresh.
  - simpl. rewrite app_nil_r. reflexivity.
  - simpl in *. inversion Hnd as [|? ? Hk Hnd']; subst.
    destruct (dict_set_cases k v acc) as [[Hin _]|[_ Hset]].
    { exfalso. apply (Hfresh k); auto. }
    rewrite Hset, IH; [rewrite <- app_assoc; reflexivity | exact Hnd' |].
    intros k0 Hk0. unfold keys. rewrite map_app, in_app_iff. simpl.
    intros [Hacc|[<-|[]]]; [apply (Hfresh k0); auto | exact (Hk Hk0)].
Qed.

(** X4: the dictionary [representations] has every layer once, and when
    the model's dictionary has every layer once (as a dictionary does) it
    is that dictionary, in the same order. *)
Theorem to_cpu_keeps_the_dictionary (items : list (Z * tensor)) :
  NoDup (keys (to_cpu items))
  /\ (NoDup (keys items) -> to_cpu items = items).
Proof.
  split; [apply NoDup_dict_of_items|].
  intros Hnd. unfold to_cpu, dict_of_items.
  apply (dict_of_items_fresh items [] Hnd). intros k _ [].
Qed.

(** ** Slices on tensors of any shape *)

(** X5: slicing never fails on a row that exists; on a row shorter than the
    sequence plus its beginning-of-sequence position the slice is clamped
    and holds what is there after position 0. *)
Theorem per_tok_slice_clamped (strs : list string) (i : nat) (t : tensor)
        (seq : string) (row : list vec) :
  nth_error strs i = Some seq ->
  nth_error t i = Some row ->
  exists m,
    per_tok_slice strs i t = Ok m
    /\ List.length m = Nat.min (String.length seq) (List.length row - 1)
    /\ forall k, (k < String.length seq)%nat ->
         nth_error m k = nth_error row (S k).
Proof.
  intros Hseq Hrow. rewrite (per_tok_slice_ok _ _ _ _ _ Hseq Hrow).
  eexists. split; [reflexivity|]. split.
  - unfold py_slice. rewrite length_firstn, length_skipn. lia.
  - intros k Hk. apply py_slice_nth, Hk.
Qed.

(** X6: what is selected for sequence [i] depends on its own row only, and
    there on the positions up to the last residue: padding and the other
    sequences of the batch never reach the output. *)
Theorem selection_ignores_padding (strs : list string) (i : nat)
        (t t' : tensor) (seq : string) (row row' : list vec) :
  nth_error strs i = Some seq ->
  nth_error t i = Some row ->
  nth_error t' i = Some row' ->
  firstn (String.length seq + 1) row = firstn (String.length seq + 1) row' ->
  per_tok_slice strs i t = per_tok_slice strs i t'
  /\ mean_slice strs i t = mean_slice strs i t'
  /\ bos_slice i t = bos_slice i t'.
Proof.
  intros Hseq Hrow Hrow' Heq.
  assert (per_tok_slice strs i t = per_tok_slice strs i t') as Hper.
  { rewrite (per_tok_slice_ok _ _ _ _ _ Hseq Hrow),
      (per_tok_slice_ok _ _ _ _ _ Hseq Hrow'). f_equal.
    unfold py_slice.
    replace (String.length seq + 1 - 1)%nat with (String.length seq) by lia.
    rewrite !firstn_skipn_comm.
    replace (1 + String.length seq)%nat with (String.length seq + 1)%nat
      by lia.
    rewrite Heq. reflexivity. }
  split; [exact Hper|]. split.
  - unfold mean_slice. rewrite Hper. reflexivity.
  - unfold bos_slice, py_index. rewrite Hrow, Hrow'. simpl.
    replace (String.length seq + 1)%nat with (S (String.length seq)) in Heq
      by lia.
    destruct row, row'; simpl in Heq; try reflexivity; try discriminate.
    injection Heq as -> _. reflexivity.
Qed.

End ToCpu.

(** ** One iteration of extract_arrays.py *)

Section Iteration.
Context `{Disk}.

(** X7: the bundle an iteration saves has the key "label" and then one key
    per requested kind, always in the order per_tok, mean, bos of the [if]
    statements, whatever the order on the command line; a kind that was
    not requested is not in it. *)
Theorem bundle_holds_requested_kinds (a : args)
        (representations : dict Z tensor) (strs : list string) (i : nat)
        (label : string) (s : state) :
  included "npy_array" a = false ->
  fst (process_sequence a representations strs (i, label) s) = Ok tt ->
  exists d,
    trace (snd (process_sequence a representations strs (i, label) s))
    = trace s ++ [Done (Mkdir (parent (output_file a label)));
                  Done (TorchSave (Bundle d) (output_file a label))]
    /\ keys d
       = ["label"%string]
         ++ (if included "per_tok" a then ["representations"%string] else [])
         ++ (if included "mean" a
             then ["mean_representations"%string] else [])
         ++ (if included "bos" a then ["bos_representations"%string] else [])
    /\ (dict_get "representations" d = None
        <-> included "per_tok" a = false)
    /\ (dict_get "mean_representations" d = None
        <-> included "mean" a = false)
    /\ (dict_get "bos_representations" d = None
        <-> included "bos" a = false).
Proof.
  intros Hnpy Hok.
  destruct (process_sequence_bundle_ok a representations strs i label s
              Hnpy Hok) as (dt & dm & db & Hb & _).
  destruct (process_sequence_log a representations strs i label s)
    as [[Hf _]|[(e & _ & Hf & _)|[(v & _ & Hres & Htr)|(v & Hf & _)]]];
    try congruence.
  exists (bundle_of a label dt dm db).
  assert (v = Bundle (bundle_of a label dt dm db)) as -> by congruence.
  split.
  { rewrite Htr. unfold save_call. rewrite Hnpy. reflexivity. }
  unfold bundle_of.
  destruct (included "per_tok" a), (included "mean" a), (included "bos" a);
    simpl; repeat split; intros; try reflexivity; try discriminate.
Qed.

(** X8: without [npy_array] an iteration starts from a fresh
    [{"label": label}]: what a previous iteration left in [result] changes
    neither its outcome nor its calls, and once the directory is made not
    even the final state. *)
Theorem bundle_mode_forgets_result (a : args)
        (representations : dict Z tensor) (strs : list string)
        (il : nat * string) (s : state) (r : option pyval) :
  included "npy_array" a = false ->
  fst (process_sequence a representations strs il (with_result r s))
  = fst (process_sequence a representations strs il s)
  /\ trace (snd (process_sequence a representations strs il (with_result r s)))
     = trace (snd (process_sequence a representations strs il s))
  /\ (io_ok (trace s) (Mkdir (parent (output_file a (snd il)))) = true ->
      process_sequence a representations strs il (with_result r s)
      = process_sequence a representations strs il s).
Proof.
  intros Hnpy. destruct il as [i label]. unfold process_sequence.
  rewrite Hnpy, !bind_syscall. simpl negb. simpl snd.
  change (trace (with_result r s)) with (trace s).
  destruct (io_ok (trace s) (Mkdir (parent (output_file a label)))).
  - assert (forall k : unit -> M unit,
              bind (when true (set_result (Bundle [("label"%string, ELabel label)])))
                k (log (Done (Mkdir (parent (output_file a label))))
                     (with_result r s))
              = bind (when true (set_result (Bundle [("label"%string, ELabel label)])))
                  k (log (Done (Mkdir (parent (output_file a label)))) s))
      as Hfresh by reflexivity.
    rewrite Hfresh. auto.
  - split; [reflexivity|]. split; [reflexivity | discriminate].
Qed.

(** X9: an iteration that raises while selecting the output (an
    [IndexError] on an ill-shaped tensor, an unbound [result]) has already
    made the directory of its file and saves nothing. *)
Theorem selection_failure_leaves_directory (a : args)
        (representations : dict Z tensor) (strs : list string) (i : nat)
        (label : string) (s : state) (e : exn) :
  fst (process_sequence a representations strs (i, label) s) = Raise e ->
  e <> OSError ->
  trace (snd (process_sequence a representations strs (i, label) s))
  = trace s ++ [Done (Mkdir (parent (output_file a label)))]
  /\ saves (trace (snd (process_sequence a representations strs (i, label) s)))
     = saves (trace s).
Proof.
  intros Hraise Hne.
  destruct (process_sequence_log a representations strs i label s)
    as [[Hf _]|[(e' & _ & _ & Htr)|[(v & Hf & _)|(v & Hf & _)]]];
    try congruence.
  split; [exact Htr|]. rewrite Htr, saves_app. simpl. apply app_nil_r.
Qed.

End Iteration.

(** ** What a whole run shows in its log *)

Lemma firstn_prefix_app {X} (k : nat) (xs ys : list X) :
  firstn k xs = firstn (Nat.min k (List.length xs)) (xs ++ ys).
Proof.
  rewrite firstn_app.
  destruct (Nat.le_ge_cases k (List.length xs)) as [Hle|Hge].
  - rewrite Nat.min_l by exact Hle.
    assert ((k - List.length xs)%nat = 0%nat) as -> by (clear - Hle; lia).
    simpl. rewrite app_nil_r. reflexivity.
  - rewrite Nat.min_r by exact Hge. rewrite Nat.sub_diag.
    simpl. rewrite app_nil_r.
    rewrite !firstn_all2; [reflexivity | apply Nat.le_refl | exact Hge].
Qed.

Lemma firstn_app_whole {X} (k : nat) (xs ys : list X) :
  xs ++ firstn k ys = firstn (List.length xs + k) (xs ++ ys).
Proof.
  rewrite firstn_app.
  replace (firstn (List.length xs + k) xs) with xs
    by (symmetry; apply firstn_all2; clear; lia).
  assert ((List.length xs + k - List.length xs)%nat = k) as ->
      by (clear; lia).
  reflexivity.
Qed.


Section WholeRun.
Context `{Disk}.

Lemma emits_bind {X} (view : list entry_log -> list X) (xs ys : list X)
      (c k : M unit) :
  emits view xs c -> emits view ys k ->
  emits view (xs ++ ys) (bind c (fun _ => k)).
Proof.
  intros Hc Hk s. unfold bind.
  destruct (Hc s) as [[Hok Hv]|[Hne (n & Hv)]];
    destruct (c s) as [[[]|e] s1]; simpl in *; try congruence.
  - destruct (Hk s1) as [[Hok' Hv']|[Hne' (n & Hv')]].
    + left. split; [exact Hok'|]. rewrite Hv', Hv, app_assoc. reflexivity.
    + right. split; [exact Hne'|]. exists (List.length xs + n)%nat.
      rewrite Hv', Hv, <- app_assoc, firstn_app_whole. reflexivity.
  - right. split; [discriminate|].
    exists (Nat.min n (List.length xs)).
    rewrite Hv, <- firstn_prefix_app. reflexivity.
Qed.

Lemma emits_for_each {X A} (view : list entry_log -> list X)
      (shown : A -> list X) (body : A -> M unit) (l : list A) :
  (forall x, emits view (shown x) (body x)) ->
  emits view (flat_map shown l) (for_each l body).
Proof.
  intros Hbody. induction l as [|x l IH]; simpl.
  - intros s. left. simpl. rewrite app_nil_r. auto.
  - apply emits_bind; auto.
Qed.

Lemma view_app_nil {X} (view : list entry_log -> list X) :
  (forall tr1 tr2, view (tr1 ++ tr2) = view tr1 ++ view tr2) ->
  forall tr added, view added = [] -> view (tr ++ added) = view tr ++ [].
Proof. intros Happ tr added Hnil. rewrite Happ, Hnil. reflexivity. Qed.

Lemma forward_calls_app (tr1 tr2 : list entry_log) :
  forward_calls (tr1 ++ tr2) = forward_calls tr1 ++ forward_calls tr2.
Proof. unfold forward_calls. apply flat_map_app. Qed.

(** An iteration shows its file among the saved paths when it completes,
    and no forward pass. *)
Lemma emits_process_sequence (a : args) (representations : dict Z tensor)
      (strs : list string) (i : nat) (label : string) :
  emits saved_paths [output_file a label]
    (process_sequence a representations strs (i, label))
  /\ emits forward_calls []
       (process_sequence a representations strs (i, label)).
Proof.
  split; intros s;
    destruct (process_sequence_log a representations strs i label s)
      as [[Hf Htr]|[(e & Hne & Hf & Htr)|[(v & Hf & _ & Htr)|(v & Hf & _ & Htr)]]];
    rewrite Htr, Hf.
  - right. split; [discriminate|]. exists 0%nat.
    rewrite saved_paths_app. reflexivity.
  - right. split; [discriminate|]. exists 0%nat.
    rewrite saved_paths_app. reflexivity.
  - left. split; [reflexivity|]. rewrite saved_paths_app. f_equal.
    unfold save_call. simpl.
    destruct (negb (included "npy_array" a)); reflexivity.
  - right. split; [discriminate|]. exists 0%nat.
    rewrite saved_paths_app. reflexivity.
  - right. split; [discriminate|]. exists 0%nat.
    rewrite forward_calls_app. reflexivity.
  - right. split; [discriminate|]. exists 0%nat.
    rewrite forward_calls_app. reflexivity.
  - left. split; [reflexivity|]. rewrite forward_calls_app. f_equal.
    unfold save_call. simpl.
    destruct (negb (included "npy_array" a)); reflexivity.
  - right. split; [discriminate|]. exists 0%nat.
    rewrite forward_calls_app. reflexivity.
Qed.

Lemma map_snd_enumerate {A} (l : list A) : map snd (enumerate l) = l.
Proof.
  unfold enumerate. generalize 0%nat.
  induction l as [|x l IH]; intros n; simpl; [reflexivity|].
  rewrite IH. reflexivity.
Qed.

Lemma flat_map_singleton {A B} (f : A -> B) (l : list A) :
  flat_map (fun x => [f x]) l = map f l.
Proof. induction l; simpl; congruence. Qed.

Lemma flat_map_nil {A B} (l : list A) :
  flat_map (fun _ : A => @nil B) l = [].
Proof. induction l; simpl; auto. Qed.

Lemma emits_process_batch (a : args) (layers : list Z) (b : batch) :
  emits saved_paths (map (output_file a) (labels b))
    (process_batch (process_sequence a) layers b)
  /\ emits forward_calls [(toks b, layers)]
       (process_batch (process_sequence a) layers b).
Proof.
  unfold process_batch.
  set (representations := to_cpu (forward (toks b) layers)).
  assert (emits saved_paths (map (output_file a) (labels b))
            (for_each (enumerate (labels b))
               (process_sequence a representations (strs b)))) as Hpaths.
  { rewrite <- (map_snd_enumerate (labels b)) at 1.
    rewrite map_map, <- flat_map_singleton.
    apply emits_for_each. intros [i label].
    apply emits_process_sequence. }
  assert (emits forward_calls []
            (for_each (enumerate (labels b))
               (process_sequence a representations (strs b)))) as Hfw.
  { rewrite <- (flat_map_nil (enumerate (labels b))).
    apply emits_for_each. intros [i label].
    apply emits_process_sequence. }
  split; intros s; unfold bind, model_call; fold representations.
  - destruct (Hpaths (log (Done (Forward (toks b) layers)) s))
      as [[Hok Hv]|[Hne (k & Hv)]]; simpl trace in Hv;
      rewrite saved_paths_app in Hv; simpl in Hv;
      rewrite app_nil_r in Hv; [left | right]; eauto.
  - destruct (Hfw (log (Done (Forward (toks b) layers)) s))
      as [[Hok Hv]|[Hne (k & Hv)]]; simpl trace in Hv;
      rewrite forward_calls_app in Hv; simpl in Hv.
    + left. split; [exact Hok|]. rewrite Hv, <- app_assoc. reflexivity.
    + right. split; [exact Hne|]. exists 1%nat.
      rewrite Hv. simpl. rewrite firstn_nil, <- app_assoc. reflexivity.
Qed.

Lemma emits_main_arrays (a : args) (L : Z) (data_loader : list batch) :
  emits saved_paths (expected_paths a data_loader)
    (main_arrays a L data_loader)
  /\ emits forward_calls
       (map (fun b => (toks b, map (canonical L) (repr_layers a)))
            data_loader)
       (main_arrays a L data_loader).
Proof.
  assert (forall layers,
            emits saved_paths (expected_paths a data_loader)
              (for_each data_loader
                 (process_batch (process_sequence a) layers))) as Hpaths.
  { intros layers. apply emits_for_each. intros b.
    apply emits_process_batch. }
  assert (forall layers,
            emits forward_calls (map (fun b => (toks b, layers)) data_loader)
              (for_each data_loader
                 (process_batch (process_sequence a) layers))) as Hfw.
  { intros layers. rewrite <- flat_map_singleton.
    apply emits_for_each. intros b. apply emits_process_batch. }
  split; intros s; unfold main_arrays; rewrite bind_syscall;
    (destruct (io_ok (trace s) (Mkdir (output_dir a)));
     [| right; split; [discriminate|]; exists 0%nat; simpl;
        rewrite ?saved_paths_app, ?forward_calls_app; reflexivity]);
    unfold bind at 1; unfold lift;
    (destruct (normalize_layers L (repr_layers a)) as [layers|e] eqn:En;
     [| right; split; [discriminate|]; exists 0%nat; simpl;
        rewrite ?saved_paths_app, ?forward_calls_app; reflexivity]).
  - destruct (Hpaths layers (log (Done (Mkdir (output_dir a))) s))
      as [[Hok Hv]|[Hne (k & Hv)]]; simpl trace in Hv;
      rewrite saved_paths_app in Hv; simpl in Hv;
      rewrite app_nil_r in Hv; [left | right]; eauto.
  - destruct (proj2 (normalize_layers_cases L (repr_layers a)) layers En)
      as (_ & -> & _).
    destruct (Hfw (map (canonical L) (repr_layers a))
                (log (Done (Mkdir (output_dir a))) s))
      as [[Hok Hv]|[Hne (k & Hv)]]; simpl trace in Hv;
      rewrite forward_calls_app in Hv; simpl in Hv;
      rewrite app_nil_r in Hv; [left | right]; eauto.
Qed.

(** X10: a run of extract_arrays.py that completes has saved exactly one
    file per sequence, in the order of the input, each named after its
    label; two sequences with the same label are saved to the same path,
    the later one last. *)
Theorem completed_run_saves_every_sequence (a : args) (L : Z)
        (data_loader : list batch) (s : state) :
  fst (main_arrays a L data_loader s) = Ok tt ->
  saved_paths (trace (snd (main_arrays a L data_loader s)))
  = saved_paths (trace s) ++ expected_paths a data_loader.
Proof.
  intros Hok.
  destruct (proj1 (emits_main_arrays a L data_loader) s)
    as [[_ Hv]|[Hne _]]; [exact Hv | contradiction].
Qed.

(** X11: whatever happens, the files a run of extract_arrays.py has saved
    are those of the first sequences of the input, in order and without a
    gap: nothing is saved out of turn or under another name. *)
Theorem saved_files_are_a_prefix (a : args) (L : Z)
        (data_loader : list batch) (s : state) :
  exists k,
    saved_paths (trace (snd (main_arrays a L data_loader s)))
    = saved_paths (trace s) ++ firstn k (expected_paths a data_loader).
Proof.
  destruct (proj1 (emits_main_arrays a L data_loader) s)
    as [[_ Hv]|[_ Hk]]; [|exact Hk].
  exists (List.length (expected_paths a data_loader)).
  rewrite firstn_all. exact Hv.
Qed.

(** X12: the model is called once per batch, in order, with the canonical
    layer indices: a run that completes has made exactly these forward
    passes, any other run the first of them; and whenever a forward pass is
    made its layers lie in [0, L]. *)
Theorem forward_passes_of_a_run (a : args) (L : Z)
        (data_loader : list batch) (s : state) :
  let layers := map (canonical L) (repr_layers a) in
  let passes := map (fun b => (toks b, layers)) data_loader in
  (fst (main_arrays a L data_loader s) = Ok tt ->
   forward_calls (trace (snd (main_arrays a L data_loader s)))
   = forward_calls (trace s) ++ passes)
  /\ exists k,
       forward_calls (trace (snd (main_arrays a L data_loader s)))
       = forward_calls (trace s) ++ firstn k passes
       /\ (firstn k passes <> [] -> Forall (fun c => 0 <= c <= L) layers).
Proof.
  intros layers passes. split.
  - intros Hok.
    destruct (proj2 (emits_main_arrays a L data_loader) s)
      as [[_ Hv]|[Hne _]]; [exact Hv | contradiction].
  - destruct (normalize_layers L (repr_layers a)) as [ls|e] eqn:En.
    + destruct (proj2 (normalize_layers_cases L (repr_layers a)) ls En)
        as (Hvalid & _).
      assert (Forall (fun c => 0 <= c <= L) layers) as Hin.
      { apply Forall_map. revert Hvalid. apply Forall_impl.
        intros i Hi. apply (canonical_bounds L i Hi). }
      destruct (proj2 (emits_main_arrays a L data_loader) s)
        as [[_ Hv]|[_ (k & Hk)]].
      * exists (List.length passes). rewrite firstn_all. auto.
      * exists k. auto.
    + exists 0%nat. split; [|intros Habs; contradiction Habs; reflexivity].
      simpl. rewrite app_nil_r. unfold main_arrays.
      rewrite bind_syscall.
      destruct (io_ok (trace s) (Mkdir (output_dir a))).
      * unfold bind, lift. rewrite En. simpl.
        rewrite forward_calls_app. simpl. apply app_nil_r.
      * simpl. rewrite forward_calls_app. simpl. apply app_nil_r.
Qed.

End WholeRun.

(** ** Runs that complete *)

Section Completion.
Context `{Disk}.

Lemma for_each_completes {A} (l : list A) (body : A -> M unit) :
  (forall x, In x l -> forall s, fst (body x s) = Ok tt) ->
  forall s, fst (for_each l body s) = Ok tt.
Proof.
  induction l as [|x l IH]; intros Hbody s; simpl; [reflexivity|].
  unfold bind. pose proof (Hbody x (or_introl eq_refl) s) as Hx.
  destruct (body x s) as [[[]|e] s1]; simpl in Hx; [|discriminate].
  apply IH. intros y Hy. apply Hbody. right. exact Hy.
Qed.

Lemma enumerate_bound {A} (l : list A) (i : nat) (x : A) :
  In (i, x) (enumerate l) -> (i < List.length l)%nat.
Proof.
  unfold enumerate. intros Hin. apply in_combine_l in Hin.
  apply in_seq in Hin. clear - Hin. lia.
Qed.

(** An iteration on well-shaped tensors and a disk that accepts every call
    completes, in bundle mode and in raw-array mode with [per_tok] over a
    non-empty dictionary. *)
Lemma process_sequence_completes (a : args) (items : list (Z * tensor))
      (strs : list string) (i : nat) (label : string) (s : state) :
  (forall tr c, io_ok tr c = true) ->
  well_shaped strs i (to_cpu items) = true ->
  included "npy_array" a = false
  \/ (included "per_tok" a = true /\ to_cpu items <> []) ->
  fst (process_sequence a (to_cpu items) strs (i, label) s) = Ok tt.
Proof.
  intros Hio Hw Hmode.
  destruct (included "npy_array" a) eqn:Hnpy.
  - destruct Hmode as [Habs|[Hper Hne]]; [discriminate|].
    destruct (exists_last Hne) as (init & [layer t] & Hreps).
    assert (In (layer, t) (to_cpu items)) as Hin
        by (rewrite Hreps; apply in_or_app; right; left; reflexivity).
    destruct (per_tok_defined _ _ _ Hw _ Hin) as [m Hm]. simpl in Hm.
    rewrite (process_sequence_npy a (to_cpu items) strs i label s Hnpy).
    rewrite Hper, bind_syscall, Hio.
    unfold when. unfold bind at 1. unfold bind at 1.
    rewrite Hreps.
    rewrite (overwrite_loop_last strs i init layer t _) with (2 := Hm).
    2:{ intros lt Hlt. apply (per_tok_defined _ _ _ Hw).
        rewrite Hreps. apply in_or_app. left. exact Hlt. }
    unfold detach_numpy, bind, get_result, ret, syscall. simpl.
    rewrite Hio. reflexivity.
  - destruct (process_sequence_bundle a items strs i label s Hnpy
                (Hio _ _) Hw) as (dt & dm & db & _ & _ & _ & Hrun).
    rewrite Hrun. unfold syscall. rewrite Hio. reflexivity.
Qed.

(** X13: extract_arrays.py runs to completion when the layer indices are
    valid, the filesystem accepts every call and every layer tensor has a
    row for each sequence of its batch that is long enough for the
    beginning-of-sequence position and the residues, in bundle mode and in
    raw-array mode with [per_tok] when the model returns a layer. *)
Theorem well_formed_run_completes (a : args) (L : Z)
        (data_loader : list batch) (s : state) :
  let layers := map (canonical L) (repr_layers a) in
  Forall (fun i => - (L + 1) <= i <= L) (repr_layers a) ->
  (forall tr c, io_ok tr c = true) ->
  (forall b i, In b data_loader -> (i < List.length (labels b))%nat ->
     well_shaped (strs b) i (to_cpu (forward (toks b) layers)) = true) ->
  included "npy_array" a = false
  \/ (included "per_tok" a = true
      /\ forall b, In b data_loader ->
           to_cpu (forward (toks b) layers) <> []) ->
  fst (main_arrays a L data_loader s) = Ok tt.
Proof.
  intros layers Hvalid Hio Hshape Hmode. unfold main_arrays.
  rewrite bind_syscall, Hio. unfold bind at 1. unfold lift.
  rewrite (normalize_layers_valid L _ Hvalid). fold layers.
  apply for_each_completes. intros b Hb st.
  unfold process_batch, bind, model_call.
  apply for_each_completes. intros [i label] Hil st'.
  apply process_sequence_completes.
  - exact Hio.
  - apply Hshape; [exact Hb | exact (enumerate_bound _ _ _ Hil)].
  - destruct Hmode as [Hnpy|[Hper Hne]]; auto.
Qed.

End Completion.

(** ** Refused calls *)

Section Refusal.
Context `{Disk}.

Lemma stops_quiet {A} (c : M A) : quiet c -> stops_at_refusal c.
Proof.
  intros Hq s. destruct (Hq s) as [Htr Hne].
  exists []. rewrite app_nil_r. split; [exact Htr|]. left. auto.
Qed.

Lemma stops_syscall (c : call) : stops_at_refusal (syscall c).
Proof.
  intros s. unfold syscall. destruct (io_ok (trace s) c); simpl.
  - exists [Done c]. split; [reflexivity|]. left.
    split; [discriminate | repeat constructor].
  - exists [Failed c]. split; [reflexivity|]. right.
    split; [reflexivity|]. exists [], c. split; [reflexivity | constructor].
Qed.

Lemma stops_model_call (t : tokens) (layers : list Z) :
  stops_at_refusal (model_call t layers).
Proof.
  intros s. exists [Done (Forward t layers)]. split; [reflexivity|].
  left. split; [discriminate | repeat constructor].
Qed.

Lemma stops_bind {A B} (c : M A) (k : A -> M B) :
  stops_at_refusal c -> (forall x, stops_at_refusal (k x)) ->
  stops_at_refusal (bind c k).
Proof.
  intros Hc Hk s. unfold bind.
  destruct (Hc s) as (added & Htr & Hcase).
  destruct (c s) as [[x|e] s1]; simpl in Htr, Hcase.
  - destruct Hcase as [[_ Hgood]|[Habs _]]; [|discriminate].
    destruct (Hk x s1) as (added' & Htr' & Hcase').
    exists (added ++ added'). rewrite Htr', Htr, app_assoc.
    split; [reflexivity|].
    destruct Hcase' as [[Hne Hgood']|[Hos (done & refused & -> & Hdone)]].
    + left. split; [exact Hne | apply Forall_app; auto].
    + right. split; [exact Hos|]. exists (added ++ done), refused.
      split; [apply app_assoc | apply Forall_app; auto].
  - exists added. simpl. split; [exact Htr|].
    destruct Hcase as [[Hne Hgood]|[Hos Hlast]].
    + left. split; [intros [= ->]; apply Hne; reflexivity | exact Hgood].
    + right. injection Hos as ->. split; [reflexivity | exact Hlast].
Qed.

Lemma stops_for_each {A} (l : list A) (body : A -> M unit) :
  (forall x, stops_at_refusal (body x)) ->
  stops_at_refusal (for_each l body).
Proof.
  intros Hbody. induction l as [|x l IH]; simpl.
  - apply stops_quiet, quiet_ret.
  - apply stops_bind; auto.
Qed.

Lemma stops_process_sequence (a : args) (representations : dict Z tensor)
      (strs : list string) (il : nat * string) :
  stops_at_refusal (process_sequence a representations strs il).
Proof.
  destruct il as [i label]. intros s.
  destruct (process_sequence_log a representations strs i label s)
    as [[Hf Htr]|[(e & Hne & Hf & Htr)|[(v & Hf & _ & Htr)|(v & Hf & _ & Htr)]]];
    eexists; (split; [exact Htr|]); rewrite Hf.
  - right. split; [reflexivity|]. eexists [], _.
    split; [reflexivity | constructor].
  - left. split; [intros [= ->]; apply Hne; reflexivity|].
    repeat constructor.
  - left. split; [discriminate | repeat constructor].
  - right. split; [reflexivity|].
    eexists [_], _. split; [reflexivity | repeat constructor].
Qed.

(** X14: a run of extract_arrays.py ends at the first call the filesystem
    refuses: a refused call is never followed by another call, so nothing
    is tried again or cleaned up, and the run ends with an [OSError]
    exactly when its last call was refused. *)
Theorem run_ends_at_first_refusal (a : args) (L : Z)
        (data_loader : list batch) (s : state) :
  exists added,
    trace (snd (main_arrays a L data_loader s)) = trace s ++ added
    /\ ((fst (main_arrays a L data_loader s) <> Raise OSError
         /\ Forall (fun e => is_failed e = false) added)
        \/ (fst (main_arrays a L data_loader s) = Raise OSError
            /\ exists done refused,
                 added = done ++ [Failed refused]
                 /\ Forall (fun e => is_failed e = false) done)).
Proof.
  assert (stops_at_refusal (main_arrays a L data_loader)) as Hstops.
  { unfold main_arrays. apply stops_bind; [apply stops_syscall|].
    intros _. apply stops_bind.
    - apply stops_quiet, quiet_lift.
      intros Habs.
      destruct (proj1 (normalize_layers_cases L (repr_layers a)) _ Habs)
        as [Hassert _]. discriminate.
    - intros layers. apply stops_for_each. intros b.
      unfold process_batch. apply stops_bind; [apply stops_model_call|].
      intros out. apply stops_for_each. intros il.
      apply stops_process_sequence. }
  exact (Hstops s).
Qed.

End Refusal.

(** ** extract-myseq.py never saves *)

Section Myseq.
Context `{Disk}.

Lemma adds_quiet (P : entry_log -> Prop) {A} (c : M A) :
  quiet c -> adds P c.
Proof.
  intros Hq s. exists []. rewrite app_nil_r.
  split; [apply Hq | constructor].
Qed.

Lemma adds_syscall (P : entry_log -> Prop) (c : call) :
  P (Done c) -> P (Failed c) -> adds P (syscall c).
Proof.
  intros Hd Hf s. unfold syscall. destruct (io_ok (trace s) c); simpl.
  - exists [Done c]. auto.
  - exists [Failed c]. auto.
Qed.

Lemma adds_model_call (P : entry_log -> Prop) (t : tokens)
      (layers : list Z) :
  P (Done (Forward t layers)) -> adds P (model_call t layers).
Proof. intros Hp s. exists [Done (Forward t layers)]. auto. Qed.

Lemma adds_bind (P : entry_log -> Prop) {A B} (c : M A) (k : A -> M B) :
  adds P c -> (forall x, adds P (k x)) -> adds P (bind c k).
Proof.
  intros Hc Hk s. unfold bind. destruct (Hc s) as (added & Htr & Hp).
  destruct (c s) as [[x|e] s1]; simpl in Htr.
  - destruct (Hk x s1) as (added' & Htr' & Hp').
    exists (added ++ added'). rewrite Htr', Htr, app_assoc.
    split; [reflexivity | apply Forall_app; auto].
  - exists added. auto.
Qed.

(** A statement that never completes cuts off what follows it. *)
Lemma adds_bind_stuck (P : entry_log -> Prop) {A B} (c : M A)
      (k : A -> M B) :
  adds P c -> (forall s x, fst (c s) <> Ok x) -> adds P (bind c k).
Proof.
  intros Hc Hstuck s. unfold bind. destruct (Hc s) as (added & Htr & Hp).
  specialize (Hstuck s).
  destruct (c s) as [[x|e] s1]; simpl in *;
    [exfalso; apply (Hstuck x); reflexivity|].
  exists added. auto.
Qed.

Lemma adds_for_each (P : entry_log -> Prop) {A} (l : list A)
      (body : A -> M unit) :
  (forall x, adds P (body x)) -> adds P (for_each l body).
Proof.
  intros Hbody. induction l as [|x l IH]; simpl.
  - apply adds_quiet, quiet_ret.
  - apply adds_bind; auto.
Qed.

Lemma quiet_setitem_myseq (key : string) (value : entry) :
  quiet (setitem_myseq key value).
Proof.
  apply quiet_bind; [apply quiet_lift; discriminate|].
  intros [d|m|v]; [apply quiet_ret | apply quiet_lift; discriminate ..].
Qed.

Lemma stuck_setitem_myseq {W} (r : res W) (key : string)
      (value : W -> entry) (s : state) :
  fst ((d <- lift r ;; setitem_myseq key (value d)) s) <> Ok tt.
Proof.
  unfold bind, lift, setitem_myseq, global_result, bind, lift.
  destruct r; discriminate.
Qed.

Lemma quiet_kind_myseq {W} (b : bool) (f : tensor -> res W)
      (representations : dict Z tensor) (key : string)
      (value : dict Z W -> entry) :
  (forall t e, f t = Raise e -> e = IndexError) ->
  quiet (when b (d <- lift (dict_comp f representations) ;;
                 setitem_myseq key (value d))).
Proof.
  intros Hf. apply quiet_when, quiet_bind.
  - apply quiet_comprehension, Hf.
  - intros d. apply quiet_setitem_myseq.
Qed.

Lemma quiet_res_loop (strs : list string) (i : nat)
      (representations : dict Z tensor) :
  quiet (for_each representations (fun lt =>
           v <- lift (mean_slice strs i (snd lt)) ;; set_res (Vector v))).
Proof.
  apply quiet_for_each. intros lt. apply quiet_bind.
  - apply quiet_slice, mean_slice_raises.
  - intros v s. split; [reflexivity | discriminate].
Qed.

Lemma quiet_get_res : quiet get_res.
Proof.
  intros s. unfold get_res.
  destruct (res_ s); split; (reflexivity || discriminate).
Qed.

Lemma quiet_detach_numpy_res : quiet detach_numpy_res.
Proof.
  apply quiet_bind; [apply quiet_get_res|].
  intros [d|m|v]; [apply quiet_lift; discriminate | apply quiet_ret ..].
Qed.

(** [torch.save(result, ...)] is never reached with a value for [result],
    whatever is requested. *)
Lemma myseq_iteration_no_torch_save (a : args)
      (representations : dict Z tensor) (strs : list string)
      (il : nat * string) :
  adds (fun e => is_torch_save e = false)
    (process_sequence_myseq a representations strs il).
Proof.
  destruct il as [i label]. unfold process_sequence_myseq.
  apply adds_bind; [apply adds_syscall; reflexivity|]. intros _.
  apply adds_bind;
    [apply adds_quiet, quiet_kind_myseq, per_tok_slice_raises|]. intros _.
  apply adds_bind;
    [apply adds_quiet, quiet_kind_myseq, mean_slice_raises|]. intros _.
  apply adds_bind; [apply adds_quiet, quiet_res_loop|]. intros _.
  apply adds_bind; [apply adds_quiet, quiet_detach_numpy_res|]. intros _.
  apply adds_bind;
    [apply adds_quiet, quiet_kind_myseq, bos_slice_raises|]. intros _.
  apply adds_bind.
  - apply adds_bind; [apply adds_quiet, quiet_get_res|].
    intros r. apply adds_syscall; reflexivity.
  - intros _. apply adds_bind_stuck.
    + apply adds_quiet, quiet_lift. discriminate.
    + intros s r. discriminate.
Qed.

(** With a kind requested, the iteration raises before [np.save] too. *)
Lemma myseq_iteration_no_save (a : args)
      (representations : dict Z tensor) (strs : list string)
      (il : nat * string) :
  included "per_tok" a = true \/ included "mean" a = true
  \/ included "bos" a = true ->
  adds (fun e => is_save e = false)
    (process_sequence_myseq a representations strs il).
Proof.
  intros Hkind. destruct il as [i label]. unfold process_sequence_myseq.
  apply adds_bind; [apply adds_syscall; reflexivity|]. intros _.
  destruct (included "per_tok" a) eqn:Hper.
  { apply adds_bind_stuck.
    - apply adds_quiet.
      apply (quiet_kind_myseq true), per_tok_slice_raises.
    - intros s []. apply (stuck_setitem_myseq _ _ ETensors). }
  apply adds_bind; [apply adds_quiet, quiet_ret|]. intros _.
  destruct (included "mean" a) eqn:Hmean.
  { apply adds_bind_stuck.
    - apply adds_quiet.
      apply (quiet_kind_myseq true), mean_slice_raises.
    - intros s []. apply (stuck_setitem_myseq _ _ EVectors). }
  apply adds_bind; [apply adds_quiet, quiet_ret|]. intros _.
  destruct Hkind as [Habs|[Habs|Hbos]]; try discriminate.
  rewrite Hbos.
  apply adds_bind; [apply adds_quiet, quiet_res_loop|]. intros _.
  apply adds_bind; [apply adds_quiet, quiet_detach_numpy_res|]. intros _.
  apply adds_bind_stuck.
  - apply adds_quiet.
    apply (quiet_kind_myseq true), bos_slice_raises.
  - intros s []. apply (stuck_setitem_myseq _ _ EVectors).
Qed.

Lemma adds_main_myseq (P : entry_log -> Prop) (a : args) (L : Z)
      (files : list (list batch)) :
  (forall p, P (Done (Mkdir p)) /\ P (Failed (Mkdir p))) ->
  (forall t layers, P (Done (Forward t layers))) ->
  (forall representations strs il,
     adds P (process_sequence_myseq a representations strs il)) ->
  adds P (main_myseq a L files).
Proof.
  intros Hmk Hfw Hbody. unfold main_myseq.
  apply adds_for_each. intros data_loader.
  apply adds_bind; [apply adds_syscall; apply Hmk|]. intros _.
  apply adds_bind.
  - apply adds_quiet, quiet_lift. intros Habs.
    destruct (proj1 (normalize_layers_cases L (repr_layers a)) _ Habs)
      as [Hassert _]. discriminate.
  - intros layers. apply adds_for_each. intros b.
    unfold process_batch.
    apply adds_bind; [apply adds_model_call, Hfw|].
    intros out. apply adds_for_each. intros il. apply Hbody.
Qed.

(** X15: extract-myseq.py never calls [torch.save], whatever the input,
    and with [per_tok], [mean] or [bos] requested (argparse accepts nothing
    else) it never calls [np.save] either: no run leaves an output file. *)
Theorem myseq_never_saves (a : args) (L : Z) (files : list (list batch))
        (s : state) :
  exists added,
    trace (snd (main_myseq a L files s)) = trace s ++ added
    /\ Forall (fun e => is_torch_save e = false) added
    /\ (included "per_tok" a = true \/ included "mean" a = true
        \/ included "bos" a = true ->
        Forall (fun e => is_save e = false) added).
Proof.
  destruct (adds_main_myseq (fun e => is_torch_save e = false) a L files
              (fun p => conj eq_refl eq_refl) (fun t layers => eq_refl)
              (myseq_iteration_no_torch_save a) s) as (added & Htr & Hts).
  exists added. split; [exact Htr|]. split; [exact Hts|].
  intros Hkind.
  destruct (adds_main_myseq (fun e => is_save e = false) a L files
              (fun p => conj eq_refl eq_refl) (fun t layers => eq_refl)
              (fun representations strs il =>
                 myseq_iteration_no_save a representations strs il Hkind) s)
    as (added' & Htr' & Hs).
  rewrite Htr in Htr'. apply app_inv_head in Htr'. subst added'. exact Hs.
Qed.

End Myseq.

(** * The properties on the synthetic instance *)

Import Synthetic.

(** The representations of layers 2 and 1 for the batch of "MK" and "MKV",
    as the synthetic model returns them for [--repr_layers -1 1] on a model
    of two layers. *)
Lemma two_layers_items :
  normalize_layers 2 [-1; 1] = Ok [2; 1]
  /\ @to_cpu ext (model (toks mk_mkv) [2; 1])
     = [(2, embed 2 (toks mk_mkv))] ++ [(1, embed 1 (toks mk_mkv))].
Proof. split; reflexivity. Qed.

(** Mean pooling on known values: the residues of "MK" have tokens 20 and
    15, so layer 2 averages to (2, 35/2). *)
Lemma mean_known_values :
  @mean_slice ext (strs mk_mkv) 0 (embed 2 (toks mk_mkv))
  = Ok [inject_Z 2; (35 # 2)%Q].
Proof. reflexivity. Qed.

Lemma C1_raw_array_keeps_last_layer_witness :
  exists seq row e,
    nth_error (strs mk_mkv) 0 = Some seq
    /\ nth_error (embed 1 (toks mk_mkv)) 0 = Some row
    /\ @attempt ext
         (NpSave "out/seq1" (Array (firstn (String.length seq) (skipn 1 row))))
         e
    /\ trace (snd (@process_sequence ext healthy
                     (cli [-1; 1] ["per_tok"; "mean"; "npy_array"])
                     (@to_cpu ext (model (toks mk_mkv) [2; 1]))
                     (strs mk_mkv) (0%nat, "seq1") initial))
       = trace initial ++ [Done (Mkdir (parent ("out/seq1" : path))); e]
    /\ result (snd (@process_sequence ext healthy
                      (cli [-1; 1] ["per_tok"; "mean"; "npy_array"])
                      (@to_cpu ext (model (toks mk_mkv) [2; 1]))
                      (strs mk_mkv) (0%nat, "seq1") initial))
       = Some (Array (firstn (String.length seq) (skipn 1 row))).
Proof.
  exact (@C1_raw_array_keeps_last_layer ext healthy
           (cli [-1; 1] ["per_tok"; "mean"; "npy_array"])
           (@to_cpu ext (model (toks mk_mkv) [2; 1]))
           [(2, embed 2 (toks mk_mkv))] 1 (embed 1 (toks mk_mkv))
           (strs mk_mkv) 0 "seq1" initial
           eq_refl eq_refl eq_refl eq_refl eq_refl).
Defined.

Lemma C2_layer_index_normalizer_witness :
  normalize_layers 2 [-1; 0; -3; 2] = Ok [2; 0; 0; 2]
  /\ @main_arrays ext healthy (cli [0; 3] ["mean"]) 2 [mk_mkv] initial
     = (Raise AssertionError,
        log (Done (Mkdir ("out" : path))) initial).
Proof.
  split.
  - pose proof (@C2_layer_index_normalizer ext healthy
                  (cli [-1; 0; -3; 2] ["mean"]) 2) as [Hvalid _].
    refine (proj1 (Hvalid _)).
    repeat constructor; simpl; lia.
  - pose proof (@C2_layer_index_normalizer ext healthy
                  (cli [0; 3] ["mean"]) 2) as [_ Hinvalid].
    refine (proj1 (proj2 (Hinvalid _)) [mk_mkv] initial _).
    + apply Exists_cons_tl, Exists_cons_hd. simpl. lia.
    + reflexivity.
Defined.

Lemma C3_normalization_aliases_witness :
  (canonical 2 (-1) = canonical 2 2
   <-> -1 = 2 \/ -1 = 2 + (2 + 1) \/ 2 = -1 + (2 + 1))
  /\ no_inference
       (trace (snd (@main_arrays ext healthy (cli [0; 3] ["mean"]) 2
                      [mk_mkv] initial))) = true.
Proof.
  split.
  - pose proof (@C3_normalization_aliases ext healthy
                  (cli [-1; 2] ["mean"]) 2) as [Hvalid _].
    refine (proj2 (Hvalid _) (-1) 2 _ _).
    + repeat constructor; simpl; lia.
    + simpl. auto.
    + simpl. auto.
  - pose proof (@C3_normalization_aliases ext healthy
                  (cli [0; 3] ["mean"]) 2) as [_ Hinvalid].
    refine (proj2 (proj1 (Hinvalid _) [mk_mkv] initial _)).
    + apply Exists_cons_tl, Exists_cons_hd. simpl. lia.
    + reflexivity.
Defined.

(** The indices [-1] and [2] are both valid for a model of two layers and
    distinct, yet both are normalised to [2]: the normaliser is not
    injective on the valid list [[-1; 2]]. *)
Lemma C3_not_injective :
  normalize_layers 2 [-1; 2] = Ok [2; 2]
  /\ ~ (forall i j, In i [-1; 2] -> In j [-1; 2] ->
          (i + 2 + 1) mod (2 + 1) = (j + 2 + 1) mod (2 + 1) -> i = j).
Proof.
  split; [reflexivity|].
  intros Hinj. specialize (Hinj (-1) 2).
  assert (-1 = 2) as Habs; [|discriminate Habs].
  apply Hinj; simpl; auto.
Qed.

Lemma C4_per_tok_slice_witness :
  exists bundle dt e,
    trace (snd (@process_sequence ext healthy
                  (cli [-1; 1] ["per_tok"; "mean"; "bos"])
                  (@to_cpu ext (model (toks mk_mkv) [2; 1]))
                  (strs mk_mkv) (1%nat, "seq2") initial))
    = trace initial ++ [Done (Mkdir (parent ("out/seq2.pt" : path))); e]
    /\ @attempt ext (TorchSave (Bundle bundle) "out/seq2.pt") e
    /\ dict_get "representations" bundle = Some (ETensors dt)
    /\ keys dt = keys (@to_cpu ext (model (toks mk_mkv) [2; 1]))
    /\ forall layer t,
         dict_get layer (@to_cpu ext (model (toks mk_mkv) [2; 1])) = Some t ->
         exists seq row m,
           nth_error (strs mk_mkv) 1 = Some seq
           /\ nth_error t 1 = Some row
           /\ dict_get layer dt = Some m
           /\ m = firstn (String.length seq) (skipn 1 row)
           /\ List.length m = String.length seq
           /\ forall k, (k < String.length seq)%nat ->
                nth_error m k = nth_error row (S k).
Proof.
  exact (@C4_per_tok_slice ext healthy
           (cli [-1; 1] ["per_tok"; "mean"; "bos"])
           (model (toks mk_mkv) [2; 1]) (strs mk_mkv) 1 "seq2" initial
           eq_refl eq_refl eq_refl eq_refl).
Defined.

Lemma C5_mean_of_per_tok_slice_witness :
  exists bundle dm e,
    trace (snd (@process_sequence ext healthy
                  (cli [-1; 1] ["per_tok"; "mean"; "bos"])
                  (@to_cpu ext (model (toks mk_mkv) [2; 1]))
                  (strs mk_mkv) (0%nat, "seq1") initial))
    = trace initial ++ [Done (Mkdir (parent ("out/seq1.pt" : path))); e]
    /\ @attempt ext (TorchSave (Bundle bundle) "out/seq1.pt") e
    /\ dict_get "mean_representations" bundle = Some (EVectors dm)
    /\ keys dm = keys (@to_cpu ext (model (toks mk_mkv) [2; 1]))
    /\ forall layer t,
         dict_get layer (@to_cpu ext (model (toks mk_mkv) [2; 1])) = Some t ->
         exists seq row,
           nth_error (strs mk_mkv) 0 = Some seq
           /\ nth_error t 0 = Some row
           /\ dict_get layer dm
              = Some (Qmean0 (firstn (String.length seq) (skipn 1 row)))
           /\ (@included ext "per_tok"
                 (cli [-1; 1] ["per_tok"; "mean"; "bos"]) = true ->
               exists dt,
                 dict_get "representations" bundle = Some (ETensors dt)
                 /\ dict_get layer dt
                    = Some (firstn (String.length seq) (skipn 1 row))).
Proof.
  exact (@C5_mean_of_per_tok_slice ext healthy
           (cli [-1; 1] ["per_tok"; "mean"; "bos"])
           (model (toks mk_mkv) [2; 1]) (strs mk_mkv) 0 "seq1" initial
           eq_refl eq_refl eq_refl eq_refl).
Defined.

Lemma C6_bos_is_position_zero_witness :
  exists bundle db e,
    trace (snd (@process_sequence ext healthy
                  (cli [-1; 1] ["bos"])
                  (@to_cpu ext (model (toks mk_mkv) [2; 1]))
                  (strs mk_mkv) (1%nat, "seq2") initial))
    = trace initial ++ [Done (Mkdir (parent ("out/seq2.pt" : path))); e]
    /\ @attempt ext (TorchSave (Bundle bundle) "out/seq2.pt") e
    /\ dict_get "bos_representations" bundle = Some (EVectors db)
    /\ keys db = keys (@to_cpu ext (model (toks mk_mkv) [2; 1]))
    /\ forall layer t,
         dict_get layer (@to_cpu ext (model (toks mk_mkv) [2; 1])) = Some t ->
         exists row v,
           nth_error t 1 = Some row
           /\ nth_error row 0 = Some v
           /\ dict_get layer db = Some v.
Proof.
  exact (@C6_bos_is_position_zero ext healthy
           (cli [-1; 1] ["bos"])
           (model (toks mk_mkv) [2; 1]) (strs mk_mkv) 1 "seq2" initial
           eq_refl eq_refl eq_refl eq_refl).
Defined.

Lemma C7_one_file_per_sequence_witness :
  fst (@process_sequence ext healthy (cli [-1] ["per_tok"; "npy_array"])
         (@to_cpu ext (model (toks mk_mkv) [2])) (strs mk_mkv)
         (0%nat, "seq1") initial) = Ok tt
  /\ saved_paths
       (trace (snd (@process_sequence ext healthy
                      (cli [-1] ["per_tok"; "npy_array"])
                      (@to_cpu ext (model (toks mk_mkv) [2])) (strs mk_mkv)
                      (0%nat, "seq1") initial)))
     = ["out/seq1" : path].
Proof.
  split; [reflexivity|].
  destruct (proj1 (@C7_one_file_per_sequence ext healthy
                     (cli [-1] ["per_tok"; "npy_array"])
                     (@to_cpu ext (model (toks mk_mkv) [2])) (strs mk_mkv)
                     0 "seq1" initial) eq_refl)
    as (v & _ & Hpaths & _).
  exact Hpaths.
Defined.

(** Without [npy_array] the file of sequence "seq1" is "out/seq1.pt", not
    the output directory joined with the label. *)
Lemma C7_path_has_suffix :
  fst (@process_sequence ext healthy (cli [-1] ["per_tok"])
         (@to_cpu ext (model (toks mk_mkv) [2])) (strs mk_mkv)
         (0%nat, "seq1") initial) = Ok tt
  /\ saved_paths
       (trace (snd (@process_sequence ext healthy (cli [-1] ["per_tok"])
                      (@to_cpu ext (model (toks mk_mkv) [2])) (strs mk_mkv)
                      (0%nat, "seq1") initial)))
     = ["out/seq1.pt" : path]
  /\ saved_paths
       (trace (snd (@process_sequence ext healthy (cli [-1] ["per_tok"])
                      (@to_cpu ext (model (toks mk_mkv) [2])) (strs mk_mkv)
                      (0%nat, "seq1") initial)))
     <> [@joinpath ext "out" "seq1"].
Proof.
  split; [reflexivity|]. split; [reflexivity|]. discriminate.
Qed.

Lemma C8_no_recovery_witness :
  @for_each ext _ [mk_mkv]
    (@process_batch ext
       (@process_sequence ext (room_for 1) (cli [-1] ["per_tok"])) [2])
    initial
  = (Raise OSError,
     snd (@process_sequence ext (room_for 1) (cli [-1] ["per_tok"])
            (@to_cpu ext (model (toks mk_mkv) [2])) (strs mk_mkv)
            (1%nat, "seq2")
            (snd (@process_sequence ext (room_for 1) (cli [-1] ["per_tok"])
                    (@to_cpu ext (model (toks mk_mkv) [2])) (strs mk_mkv)
                    (0%nat, "seq1")
                    (@log ext (Done (Forward (toks mk_mkv) [2])) initial)))))
  /\ saved_paths
       (trace
          (snd (@for_each ext _ [mk_mkv]
                  (@process_batch ext
                     (@process_sequence ext (room_for 1)
                        (cli [-1] ["per_tok"])) [2])
                  initial)))
     = ["out/seq1.pt" : path].
Proof.
  split; [|reflexivity].
  refine (proj1 (@C8_no_recovery ext (room_for 1) (cli [-1] ["per_tok"])
                   [2] [] [] mk_mkv [(0%nat, "seq1")] [] 1 "seq2"
                   initial initial
                   (snd (@process_sequence ext (room_for 1)
                           (cli [-1] ["per_tok"])
                           (@to_cpu ext (model (toks mk_mkv) [2]))
                           (strs mk_mkv) (0%nat, "seq1")
                           (@log ext (Done (Forward (toks mk_mkv) [2]))
                              initial)))
                   _ _ _ _)); reflexivity.
Defined.

Lemma C9_myseq_first_sequence_raises_witness :
  exists e s',
    @main_myseq ext healthy (cli [-1] ["bos"]) 2 [[mk_mkv]] initial
    = (Raise e, s')
    /\ is_NameError e = true
    /\ trace s'
       = trace initial
         ++ [Done (Mkdir ("out" : path));
             Done (Forward (toks mk_mkv) (map (canonical 2) [-1]));
             Done (Mkdir (parent ("out/seq1" : path)))]
    /\ saves (trace s') = saves (trace (@initial ext)).
Proof.
  refine (@C9_myseq_first_sequence_raises ext healthy (cli [-1] ["bos"]) 2
            mk_mkv [] [] "seq1" ["seq2"] initial _ _ _
            eq_refl eq_refl eq_refl eq_refl eq_refl).
  - simpl. discriminate.
  - simpl. constructor; [|constructor].
    right. right. left. reflexivity.
  - simpl. constructor; [lia | constructor].
Defined.

Lemma C10_result_never_assigned_witness :
  @main_arrays ext healthy (cli [-1] ["mean"; "npy_array"]) 2 [mk_mkv] initial
  = (Raise UnboundLocalError,
     {| result := None; res_ := None;
        trace := [Done (Mkdir ("out" : path));
                  Done (Forward (toks mk_mkv) [2]);
                  Done (Mkdir (parent ("out/seq1" : path)))] |})
  /\ @process_sequence ext healthy (cli [-1] ["mean"; "npy_array"])
       (@to_cpu ext (model (toks mk_mkv) [2])) (strs mk_mkv) (1%nat, "seq2")
       {| result := Some (Array [[inject_Z 2; inject_Z 20]]);
          res_ := None; trace := [] |}
     = (Ok tt,
        {| result := Some (Array [[inject_Z 2; inject_Z 20]]);
           res_ := None;
           trace := [Done (Mkdir (parent ("out/seq2" : path)));
                     Done (NpSave "out/seq2"
                             (Array [[inject_Z 2; inject_Z 20]]))] |}).
Proof.
  split.
  - refine (proj2 (proj2 (@C10_result_never_assigned ext healthy
                            (cli [-1] ["mean"; "npy_array"])
                            [] [] 0 "seq1" initial eq_refl eq_refl))
              2 mk_mkv [] ["seq2"] _ eq_refl eq_refl eq_refl eq_refl).
    repeat constructor; simpl; lia.
  - exact (proj1 (proj2 (@C10_result_never_assigned ext healthy
                           (cli [-1] ["mean"; "npy_array"])
                           (@to_cpu ext (model (toks mk_mkv) [2])) (strs mk_mkv)
                           1 "seq2"
                           {| result := Some (Array [[inject_Z 2; inject_Z 20]]);
                              res_ := None; trace := [] |}
                           eq_refl eq_refl))
             eq_refl (Array [[inject_Z 2; inject_Z 20]]) eq_refl).
Defined.

(** ** The further properties on the synthetic instance *)

Lemma normalize_layers_outcome_witness :
  Exists (fun i => ~ - (2 + 1) <= i <= 2) [0; 3]
  /\ [2; 0] = map (canonical 2) [-1; 0].
Proof.
  split.
  - exact (proj2 (proj1 (normalize_layers_outcome 2 [0; 3])
                    AssertionError eq_refl)).
  - exact (proj1 (proj2 (proj2 (normalize_layers_outcome 2 [-1; 0])
                           [2; 0] eq_refl))).
Defined.

Lemma normalize_layers_idempotent_witness :
  normalize_layers 2 [-1; -3] = Ok [2; 0]
  /\ normalize_layers 2 [2; 0] = Ok [2; 0].
Proof.
  split; [reflexivity|].
  exact (normalize_layers_idempotent 2 [-1; -3] [2; 0] eq_refl).
Defined.

Lemma normalize_layers_from_the_end_witness :
  normalize_layers 33 [-1; 0; -34]
  = Ok (map (fun i => if i <? 0 then i + (33 + 1) else i) [-1; 0; -34])
  /\ normalize_layers 33 [-1] = Ok [33].
Proof.
  assert (Forall (fun i => - (33 + 1) <= i <= 33) [-1; 0; -34]) as Hvalid
      by (repeat constructor; simpl; lia).
  split.
  - exact (proj1 (normalize_layers_from_the_end 33 [-1; 0; -34] Hvalid)).
  - apply (proj2 (normalize_layers_from_the_end 33 [-1; 0; -34] Hvalid)).
    lia.
Defined.

Lemma to_cpu_keeps_the_dictionary_witness :
  @to_cpu ext (model (toks mk_mkv) [2; 1]) = model (toks mk_mkv) [2; 1].
Proof.
  apply (proj2 (@to_cpu_keeps_the_dictionary ext
                  (model (toks mk_mkv) [2; 1]))).
  simpl. repeat constructor; simpl; intuition discriminate.
Defined.

(** A row with a single position after the beginning-of-sequence one, for
    a sequence of three residues: the slice holds that one position. *)
Lemma per_tok_slice_clamped_witness :
  exists m,
    @per_tok_slice ext ["MKV"%string] 0
      [[[inject_Z 0]; [inject_Z 20]]] = Ok m
    /\ List.length m = Nat.min 3 (2 - 1)
    /\ forall k, (k < 3)%nat ->
         nth_error m k = nth_error [[inject_Z 0]; [inject_Z 20]] (S k).
Proof.
  exact (@per_tok_slice_clamped ext ["MKV"%string] 0
           [[[inject_Z 0]; [inject_Z 20]]] "MKV"
           [[inject_Z 0]; [inject_Z 20]] eq_refl eq_refl).
Defined.

(** Two tensors that differ in the padding of "MK" and in the row of
    "MKV" give the same output for "MK". *)
Lemma selection_ignores_padding_witness :
  @per_tok_slice ext (strs mk_mkv) 0 (embed 2 (toks mk_mkv))
  = @per_tok_slice ext (strs mk_mkv) 0 (embed 2 [[0; 20; 15; 9]; [3; 3]])
  /\ @mean_slice ext (strs mk_mkv) 0 (embed 2 (toks mk_mkv))
     = @mean_slice ext (strs mk_mkv) 0 (embed 2 [[0; 20; 15; 9]; [3; 3]])
  /\ @bos_slice ext 0 (embed 2 (toks mk_mkv))
     = @bos_slice ext 0 (embed 2 [[0; 20; 15; 9]; [3; 3]]).
Proof.
  exact (@selection_ignores_padding ext (strs mk_mkv) 0
           (embed 2 (toks mk_mkv)) (embed 2 [[0; 20; 15; 9]; [3; 3]])
           "MK"
           (map (fun k => [inject_Z 2; inject_Z k]) [0; 20; 15; 1])
           (map (fun k => [inject_Z 2; inject_Z k]) [0; 20; 15; 9])
           eq_refl eq_refl eq_refl eq_refl).
Defined.

Lemma bundle_holds_requested_kinds_witness :
  exists d : dict string (@entry ext),
    keys d = ["label"; "representations"; "bos_representations"]%string
    /\ dict_get "mean_representations" d = None.
Proof.
  destruct (@bundle_holds_requested_kinds ext healthy
              (cli [-1] ["bos"; "per_tok"])
              (@to_cpu ext (model (toks mk_mkv) [2])) (strs mk_mkv)
              0 "seq1" initial eq_refl eq_refl)
    as (d & _ & Hkeys & _ & Hmean & _).
  exists d. split; [exact Hkeys | apply Hmean; reflexivity].
Defined.

Lemma bundle_mode_forgets_result_witness :
  @process_sequence ext healthy (cli [-1] ["mean"])
    (@to_cpu ext (model (toks mk_mkv) [2])) (strs mk_mkv) (1%nat, "seq2")
    (with_result (Some (Array [[inject_Z 7]])) initial)
  = @process_sequence ext healthy (cli [-1] ["mean"])
      (@to_cpu ext (model (toks mk_mkv) [2])) (strs mk_mkv) (1%nat, "seq2")
      initial.
Proof.
  exact (proj2 (proj2 (@bundle_mode_forgets_result ext healthy
                         (cli [-1] ["mean"])
                         (@to_cpu ext (model (toks mk_mkv) [2]))
                         (strs mk_mkv) (1%nat, "seq2") initial
                         (Some (Array [[inject_Z 7]])) eq_refl))
           eq_refl).
Defined.

(** A layer tensor with a single row, for a batch of two sequences: the
    second iteration raises [IndexError] after making its directory. *)
Lemma selection_failure_leaves_directory_witness :
  fst (@process_sequence ext healthy (cli [-1] ["per_tok"])
         [(2, embed 2 [[0; 20; 15; 1]])] (strs mk_mkv) (1%nat, "seq2")
         initial) = Raise IndexError
  /\ trace (snd (@process_sequence ext healthy (cli [-1] ["per_tok"])
                   [(2, embed 2 [[0; 20; 15; 1]])] (strs mk_mkv)
                   (1%nat, "seq2") initial))
     = trace initial ++ [Done (Mkdir (parent ("out/seq2.pt" : path)))].
Proof.
  split; [reflexivity|].
  refine (proj1 (@selection_failure_leaves_directory ext healthy
                   (cli [-1] ["per_tok"])
                   [(2, embed 2 [[0; 20; 15; 1]])] (strs mk_mkv)
                   1 "seq2" initial IndexError eq_refl _)).
  discriminate.
Defined.

Lemma completed_run_saves_every_sequence_witness :
  saved_paths
    (trace (snd (@main_arrays ext healthy (cli [-1; 1] ["per_tok"; "mean"])
                   2 [mk_mkv; mk_mkv] initial)))
  = saved_paths (trace (@initial ext))
    ++ @expected_paths ext (cli [-1; 1] ["per_tok"; "mean"]) [mk_mkv; mk_mkv].
Proof.
  exact (@completed_run_saves_every_sequence ext healthy
           (cli [-1; 1] ["per_tok"; "mean"]) 2 [mk_mkv; mk_mkv] initial
           eq_refl).
Defined.

Lemma forward_passes_of_a_run_witness :
  forward_calls
    (trace (snd (@main_arrays ext healthy (cli [-1; 1] ["bos"])
                   2 [mk_mkv; mk_mkv] initial)))
  = forward_calls (trace (@initial ext))
    ++ map (fun b => (toks b, map (canonical 2) [-1; 1])) [mk_mkv; mk_mkv].
Proof.
  exact (proj1 (@forward_passes_of_a_run ext healthy (cli [-1; 1] ["bos"])
                  2 [mk_mkv; mk_mkv] initial) eq_refl).
Defined.

Lemma well_formed_run_completes_witness :
  fst (@main_arrays ext healthy (cli [-1; 1] ["per_tok"; "npy_array"])
         2 [mk_mkv] initial) = Ok tt.
Proof.
  apply (@well_formed_run_completes ext healthy
           (cli [-1; 1] ["per_tok"; "npy_array"]) 2 [mk_mkv] initial).
  - simpl. repeat constructor; simpl; lia.
  - reflexivity.
  - intros b i [<-|[]] Hi. simpl in Hi.
    destruct i as [|[|i]]; [reflexivity | reflexivity | lia].
  - right. split; [reflexivity|].
    intros b [<-|[]]. discriminate.
Defined.

Lemma myseq_never_saves_witness :
  exists added,
    trace (snd (@main_myseq ext healthy (cli [-1] ["mean"]) 2
                  [[mk_mkv]; [mk_mkv]] initial))
    = trace initial ++ added
    /\ Forall (fun e => @is_save ext e = false) added.
Proof.
  destruct (@myseq_never_saves ext healthy (cli [-1] ["mean"]) 2
              [[mk_mkv]; [mk_mkv]] initial) as (added & Htr & _ & Hsave).
  exists added. split; [exact Htr|].
  apply Hsave. right. left. reflexivity.
Defined.
